(** * Argo Nexus front end: a shallow embedding of the React client

    The development follows the JavaScript sources of the front end:

    - [Sidebar]       the numeric boundary fields and the query parameters,
    - [MapComponent]  the rectangle overlay of the map,
    - [App]           the submit handler and the WebSocket session handlers,
    - [AppHttp]       the earlier request/response variant of the submit handler,
    - [DataPreview]   the preview table built from the returned CSV text.

    JavaScript values are modelled as they are at run time: strings are
    sequences of UTF-16 code units, numbers are IEEE 754 binary64 values
    (the kernel's primitive floats), objects are ordered property lists. *)

From Stdlib Require Import ZArith NArith List String Ascii Bool Lia.
From Stdlib Require Import Floats.
From stdpp Require Import base list.

Import ListNotations.
Open Scope Z_scope.

Set Warnings "-register-all".

(** ** JavaScript strings *)

Module Str.

(** A string is its sequence of UTF-16 code units. *)
Definition t : Type := list N.

Definition of_ascii (l : list ascii) : t := List.map N_of_ascii l.

(** Literals of the sources, which are all ASCII. *)
Definition lit (s : string) : t := of_ascii (list_ascii_of_string s).

Fixpoint eqb (a b : t) : bool :=
  match a, b with
  | [], [] => true
  | x :: a', y :: b' => N.eqb x y && eqb a' b'
  | _, _ => false
  end.

(** WhiteSpace and LineTerminator code units of ECMAScript, the set that
    [String.prototype.trim] and [parseFloat] strip. *)
Definition isWhite (c : N) : bool :=
  match c with
  | 9 | 10 | 11 | 12 | 13 | 32 | 160 | 5760
  | 8232 | 8233 | 8239 | 8287 | 12288 | 65279 => true
  | _ => (8192 <=? c) && (c <=? 8202)
  end%N.

Fixpoint trimStart (s : t) : t :=
  match s with
  | c :: r => if isWhite c then trimStart r else s
  | [] => []
  end.

Definition trimEnd (s : t) : t := rev (trimStart (rev s)).

(** [s.trim()] *)
Definition trim (s : t) : t := trimEnd (trimStart s).

(** The piece before the first separator, and the pieces after it. *)
Fixpoint splitAux (sep : N) (s : t) : t * list t :=
  match s with
  | [] => ([], [])
  | c :: r =>
      let '(p, ps) := splitAux sep r in
      if N.eqb c sep then ([], p :: ps) else (c :: p, ps)
  end.

(** [s.split(sep)] for a separator of one code unit: the result always has
    at least one element, and [n] separators give [n + 1] pieces. *)
Definition split (sep : N) (s : t) : list t :=
  let '(p, ps) := splitAux sep s in p :: ps.

(** [pieces.join(sep)] *)
Fixpoint join (sep : t) (l : list t) : t :=
  match l with
  | [] => []
  | [x] => x
  | x :: r => x ++ sep ++ join sep r
  end.

Fixpoint isPrefix (p s : t) : bool :=
  match p, s with
  | [], _ => true
  | x :: p', y :: s' => N.eqb x y && isPrefix p' s'
  | _ :: _, [] => false
  end.

Definition isDigit (c : N) : bool := ((48 <=? c) && (c <=? 57))%N.

(** Longest prefix of decimal digits, and the rest. *)
Fixpoint spanDigits (s : t) : t * t :=
  match s with
  | c :: r => if isDigit c then let '(d, r') := spanDigits r in (c :: d, r')
              else ([], s)
  | [] => ([], [])
  end.

(** Value of a sequence of decimal digits. *)
Definition digitsValue (d : t) : Z :=
  fold_left (fun acc c => 10 * acc + (Z.of_N c - 48)) d 0.

(** Decimal digits of a natural number, most significant first. *)
Fixpoint digitsOfFuel (fuel : nat) (n : N) (acc : t) : t :=
  match fuel with
  | O => acc
  | S f =>
      let acc' := (48 + n mod 10)%N :: acc in
      if (n <? 10)%N then acc' else digitsOfFuel f (n / 10)%N acc'
  end.

Definition ofN (n : N) : t := digitsOfFuel (S (N.to_nat (N.log2 n))) n [].

Definition ofZ (z : Z) : t :=
  match z with
  | Zneg p => 45%N :: ofN (Npos p)
  | _ => ofN (Z.to_N z)
  end.

(** UTF-8 bytes of one Unicode scalar value. *)
Definition utf8Scalar (c : N) : list N :=
  (if c <? 128 then [c]
   else if c <? 2048 then [192 + c / 64; 128 + c mod 64]
   else if c <? 65536
   then [224 + c / 4096; 128 + (c / 64) mod 64; 128 + c mod 64]
   else [240 + c / 262144; 128 + (c / 4096) mod 64;
         128 + (c / 64) mod 64; 128 + c mod 64])%N.

Definition isHighSurrogate (c : N) : bool := ((55296 <=? c) && (c <=? 56319))%N.
Definition isLowSurrogate (c : N) : bool := ((56320 <=? c) && (c <=? 57343))%N.

(** The scalar values of a string: a surrogate pair is one scalar value, a
    lone surrogate is replaced by U+FFFD. *)
Fixpoint scalars (s : t) : list N :=
  match s with
  | [] => []
  | c :: r =>
      if isHighSurrogate c then
        match r with
        | d :: r' =>
            if isLowSurrogate d
            then (65536 + (c - 55296) * 1024 + (d - 56320))%N :: scalars r'
            else 65533%N :: scalars r
        | [] => [65533%N]
        end
      else if isLowSurrogate c then 65533%N :: scalars r
      else c :: scalars r
  end.

(** The UTF-8 encoding of a string, as [Blob] and [TextEncoder] produce it. *)
Definition utf8 (s : t) : list N := concat (List.map utf8Scalar (scalars s)).

End Str.

(** A literal of the sources as a JavaScript string. *)
Definition js (s : string) : Str.t := Str.lit s.

(** ** JavaScript numbers *)

Module Num.

(** A number is a binary64 value. *)
Definition t : Type := float.

Definition pow10 (k : Z) : Z := 10 ^ k.

(** The binary64 value nearest to [(-1)^neg * m * 10^e10], ties to even:
    the rounding that turns a decimal literal into a Number. *)
Definition ofDecimalSF (neg : bool) (m : Z) (e10 : Z) : spec_float :=
  match m with
  | Zpos p =>
      if 0 <=? e10
      then binary_normalize prec emax
             (if neg then - (m * pow10 e10) else m * pow10 e10) 0 false
      else match pow10 (- e10) with
           | Zpos d => SFdiv prec emax (S754_finite neg p 0) (S754_finite false d 0)
           | _ => S754_nan
           end
  | _ => S754_zero neg
  end.

Definition ofDecimal (neg : bool) (m : Z) (e10 : Z) : t :=
  SF2Prim (ofDecimalSF neg m e10).

(** An optional sign: whether it is [-], and the rest. *)
Definition spanSign (s : Str.t) : bool * Str.t :=
  match s with
  | 43%N :: r => (false, r)
  | 45%N :: r => (true, r)
  | _ => (false, s)
  end.

(** The exponent part [e|E (+|-)? digits] of a literal when it is there. *)
Definition spanExponent (s : Str.t) : Z :=
  match s with
  | c :: r =>
      if (N.eqb c 101 || N.eqb c 69)%bool then
        let '(neg, r1) := spanSign r in
        let '(ds, _) := Str.spanDigits r1 in
        match ds with
        | [] => 0
        | _ => if neg then - Str.digitsValue ds else Str.digitsValue ds
        end
      else 0
  | [] => 0
  end.

(** The global [parseFloat]: leading white space is skipped, the longest
    prefix that is a StrDecimalLiteral is read and what follows it is
    ignored; without such a prefix the result is NaN. *)
Definition parseFloat (s : Str.t) : t :=
  let '(neg, s1) := spanSign (Str.trimStart s) in
  if Str.isPrefix (Str.lit "Infinity") s1
  then (if neg then neg_infinity else infinity)
  else
    let '(ip, s2) := Str.spanDigits s1 in
    let '(fp, s3) :=
      match s2 with
      | 46%N :: r => Str.spanDigits r
      | _ => ([], s2)
      end in
    match ip ++ fp with
    | [] => nan
    | ds => ofDecimal neg (Str.digitsValue ds)
              (spanExponent s3 - Z.of_nat (length fp))
    end.

(** The global [isNaN] on a Number. *)
Definition isNaN (x : t) : bool := is_nan x.

(** *** Number::toString *)

(** [x < 10^n] for the positive rational [x = num / den]. *)
Definition ltPow10 (num den n : Z) : bool :=
  if 0 <=? n then num <? den * pow10 n else num * pow10 (- n) <? den.

(** The least [n], counting up from [n0], with [num / den < 10^n]. *)
Fixpoint decimalExponent (fuel : nat) (num den n0 : Z) : Z :=
  match fuel with
  | O => n0
  | S f => if ltPow10 num den n0 then n0
           else decimalExponent f num den (n0 + 1)
  end.

(** For [k], [k + 1], ... in turn, the [k]-digit decimal [s * 10^(n-k)]
    nearest to [x = num / den] among those that read back as [x]; the first
    [k] that has one wins.  Returns [(s, k)]. *)
Fixpoint shortest (fuel : nat) (x : spec_float) (num den n k : Z) : Z * Z :=
  let p := if 0 <=? k - n then num * pow10 (k - n) else num in
  let q := if 0 <=? k - n then den else den * pow10 (n - k) in
  let lo := p / q in
  let hi := lo + 1 in
  let readsBack s :=
    match SFcompare (ofDecimalSF false s (n - k)) x with
    | Some Eq => true
    | _ => false
    end in
  let dlo := p - lo * q in
  let dhi := hi * q - p in
  let pick :=
    match readsBack lo, readsBack hi with
    | true, true =>
        if dlo <? dhi then Some lo
        else if dhi <? dlo then Some hi
        else if Z.even lo then Some lo else Some hi
    | true, false => Some lo
    | false, true => Some hi
    | false, false => None
    end in
  match pick, fuel with
  | Some s, _ => (s, k)
  | None, S f => shortest f x num den n (k + 1)
  | None, O => (lo, k)
  end.

Definition zeros (n : Z) : Str.t := repeat 48%N (Z.to_nat n).

(** Number::toString (radix 10) for a positive finite [x] whose shortest
    digits are [ds] ([k] of them) with the decimal point after [n] digits. *)
Definition layout (ds : Str.t) (k n : Z) : Str.t :=
  if (k <=? n) && (n <=? 21) then ds ++ zeros (n - k)
  else if (0 <? n) && (n <=? 21)
  then firstn (Z.to_nat n) ds ++ [46%N] ++ skipn (Z.to_nat n) ds
  else if (-6 <? n) && (n <=? 0)
  then [48%N; 46%N] ++ zeros (- n) ++ ds
  else
    let e := n - 1 in
    let ex := (if e <? 0 then 45%N else 43%N) :: Str.ofZ (Z.abs e) in
    match ds with
    | [d] => d :: 101%N :: ex
    | d :: r => d :: 46%N :: r ++ 101%N :: ex
    | [] => []
    end.

Definition toStringPos (x : spec_float) (m : positive) (e : Z) : Str.t :=
  let num := if 0 <=? e then Zpos m * 2 ^ e else Zpos m in
  let den := if 0 <=? e then 1 else 2 ^ (- e) in
  let n := decimalExponent 700 num den (-330) in
  let '(s, k) := shortest 16 x num den n 1 in
  let '(s, n) := if s =? pow10 k then (pow10 (k - 1), n + 1) else (s, n) in
  layout (Str.ofZ s) k n.

(** [String(x)] for a Number [x]. *)
Definition toString (x : t) : Str.t :=
  match Prim2SF x with
  | S754_nan => Str.lit "NaN"
  | S754_zero _ => Str.lit "0"
  | S754_infinity s => Str.lit (if s then "-Infinity" else "Infinity")
  | S754_finite s m e =>
      (if s then [45%N] else []) ++ toStringPos (S754_finite false m e) m e
  end.

End Num.

(** ** Number inputs *)

Module Input.

(** The exponent of a valid floating-point number, to the end of the text:
    nothing, or [e] or [E], an optional sign and one digit or more. *)
Definition validExponent (s : Str.t) : bool :=
  match s with
  | [] => true
  | c :: r =>
      (N.eqb c 101 || N.eqb c 69)
      && let '(ds, rest) := Str.spanDigits (snd (Num.spanSign r)) in
         match ds, rest with
         | _ :: _, [] => true
         | _, _ => false
         end
  end.

(** A valid floating-point number of HTML: an optional [-]; digits, or a
    dot and digits, or both; an optional exponent. *)
Definition validFloat (s : Str.t) : bool :=
  let s1 := match s with 45%N :: r => r | _ => s end in
  let '(ip, s2) := Str.spanDigits s1 in
  match s2 with
  | 46%N :: r =>
      let '(fp, s3) := Str.spanDigits r in
      match fp with
      | _ :: _ => validExponent s3
      | [] => false
      end
  | _ =>
      match ip with
      | _ :: _ => validExponent s2
      | [] => false
      end
  end.

(** The [value] of an [<input type="number">] into which [raw] was entered:
    the value sanitization of HTML leaves a valid floating-point number as
    it is and makes anything else the empty string. *)
Definition numberValue (raw : Str.t) : Str.t :=
  if validFloat raw then raw else [].

End Input.

(** ** JavaScript values *)

Inductive jsval : Type :=
| VUndefined
| VNull
| VBool (b : bool)
| VNum (x : Num.t)
| VStr (s : Str.t)
| VArr (xs : list jsval)
| VObj (props : list (Str.t * jsval)).

(** A plain object: its own properties in insertion order. *)
Definition obj : Type := list (Str.t * jsval).

(** The documents [JSON.stringify] writes. *)
Inductive json : Type :=
| JNull
| JBool (b : bool)
| JNum (x : Num.t)
| JStr (s : Str.t)
| JArr (xs : list json)
| JObj (props : list (Str.t * json)).

Module JS.

(** ToBoolean *)
Definition ToBoolean (v : jsval) : bool :=
  match v with
  | VUndefined | VNull => false
  | VBool b => b
  | VNum x => negb (is_zero x || is_nan x)
  | VStr s => match s with [] => false | _ => true end
  | VArr _ | VObj _ => true
  end.

(** [a || b] *)
Definition or (a b : jsval) : jsval := if ToBoolean a then a else b.

(** [typeof v === 'number'] *)
Definition isNumber (v : jsval) : bool :=
  match v with VNum _ => true | _ => false end.

(** [v === 'lit'] for a string [lit]: strict equality, no coercion. *)
Definition strictEqStr (v : jsval) (lit : Str.t) : bool :=
  match v with VStr s => Str.eqb s lit | _ => false end.

(** [a > b] on two Numbers. *)
Definition gt (a b : Num.t) : bool := PrimFloat.ltb b a.

(** The value of the own property [k], [undefined] when there is none. *)
Fixpoint lookup (k : Str.t) (o : obj) : jsval :=
  match o with
  | [] => VUndefined
  | (k', v) :: r => if Str.eqb k' k then v else lookup k r
  end.

Definition hasOwn (k : Str.t) (o : obj) : bool :=
  existsb (fun kv => Str.eqb (fst kv) k) o.

(** [v.k] for the property names the sources read ([type], [message],
    [csv], [filename], [north], ...), none of which is a property of a
    built-in prototype: [None] is the TypeError that reading a property of
    [null] or [undefined] throws. *)
Definition Get (v : jsval) (k : Str.t) : option jsval :=
  match v with
  | VUndefined | VNull => None
  | VObj o => Some (lookup k o)
  | _ => Some VUndefined
  end.

(** [v?.k] *)
Definition optGet (v : jsval) (k : Str.t) : jsval :=
  match Get v k with Some x => x | None => VUndefined end.

(** [{ ...o, [k]: v }] for a name [k] that is not an array index: an
    existing property keeps its place, a new one goes last. *)
Fixpoint set (k : Str.t) (v : jsval) (o : obj) : obj :=
  match o with
  | [] => [(k, v)]
  | (k', v') :: r => if Str.eqb k' k then (k', v) :: r else (k', v') :: set k v r
  end.

(** [{...v}] for [v] null or a plain object, the two shapes spread in the
    sources. *)
Definition spread (v : option obj) : obj :=
  match v with Some o => o | None => [] end.

(** The state variable [bounds] is [null] or an object. *)
Definition ofBounds (b : option obj) : jsval :=
  match b with Some o => VObj o | None => VNull end.

(** ToString.  [None] is the TypeError of an object whose own [toString]
    property shadows the built-in method with a value that cannot be
    called, the only way a value read from JSON fails to convert. *)
Fixpoint ToString (v : jsval) : option Str.t :=
  match v with
  | VUndefined => Some (Str.lit "undefined")
  | VNull => Some (Str.lit "null")
  | VBool b => Some (Str.lit (if b then "true" else "false"))
  | VNum x => Some (Num.toString x)
  | VStr s => Some s
  | VArr xs =>
      (fix items (l : list jsval) : option (list Str.t) :=
         match l with
         | [] => Some []
         | x :: r =>
             match (match x with
                    | VUndefined | VNull => Some []
                    | _ => ToString x
                    end), items r with
             | Some s, Some ss => Some (s :: ss)
             | _, _ => None
             end
         end) xs ≫= fun ss => Some (Str.join [44%N] ss)
  | VObj o =>
      if hasOwn (Str.lit "toString") o then None
      else Some (Str.lit "[object Object]")
  end.

(** ['lit' + v] with a string on the left: concatenation with ToString of
    the right operand. *)
Definition concat (lit : Str.t) (v : jsval) : option Str.t :=
  ToString v ≫= fun s => Some (lit ++ s).

(** [JSON.stringify]: [None] is [undefined], which an object drops and
    an array writes as [null]; a Number that is not finite is written as
    [null] and negative zero as [0]. *)
Fixpoint stringify (v : jsval) : option json :=
  match v with
  | VUndefined => None
  | VNull => Some JNull
  | VBool b => Some (JBool b)
  | VNum x => Some (if is_finite x
                    then JNum (if is_zero x then zero else x) else JNull)
  | VStr s => Some (JStr s)
  | VArr xs =>
      Some (JArr (List.map (fun x => match stringify x with
                                     | Some j => j
                                     | None => JNull
                                     end) xs))
  | VObj o =>
      Some (JObj ((fix props (l : obj) : list (Str.t * json) :=
                     match l with
                     | [] => []
                     | (k, x) :: r =>
                         match stringify x with
                         | Some j => (k, j) :: props r
                         | None => props r
                         end
                     end) o))
  end.

End JS.

(** ** Sidebar: boundary fields and query parameters *)

Module Sidebar.

(** [handleChange]: [setParams({ ...params, [name]: value })] with the
    name and the value of the edited input; the value of an input is a
    string.  The result is the new [params]. *)
Definition handleChange (params : obj) (name value : Str.t) : obj :=
  JS.set name (VStr value) (JS.spread (Some params)).

(** [handleTypeChange]: [setParams({ ...params, type })]. *)
Definition handleTypeChange (params : obj) (type : Str.t) : obj :=
  JS.set (js "type") (VStr type) (JS.spread (Some params)).

(** [handleBoundsChange]: the object [onBoundsChange] is called with, and
    [None] when it is not called. *)
Definition handleBoundsChange (bounds : option obj) (name value : Str.t)
  : option obj :=
  if Str.eqb value [] then
    Some (JS.set name (VStr []) (JS.spread bounds))
  else
    let numValue := Num.parseFloat value in
    if negb (Num.isNaN numValue)
    then Some (JS.set name (VNum numValue) (JS.spread bounds))
    else None.

Definition coreVars : list Str.t :=
  List.map js ["TEMP"; "PSAL"; "PRES"; "All QC Flags";
               "All Available Parameters"]%string.

Definition bioVars : list Str.t :=
  List.map js ["CHLA"; "DOXY"; "NITRATE"; "PH"; "BBP700"; "IRRADIANCE";
               "TEMP"; "PSAL"; "PRES"; "All QC Flags";
               "All Available Parameters"]%string.

Definition currentVars (params : obj) : list Str.t :=
  if JS.strictEqStr (JS.lookup (js "type") params) (js "core")
  then coreVars else bioVars.

(** The [value] of the numeric input of a boundary field:
    [bounds?.north || ''] and likewise for south, west and east. *)
Definition fieldValue (bounds : option obj) (name : Str.t) : jsval :=
  JS.or (JS.optGet (JS.ofBounds bounds) name) (VStr []).

End Sidebar.

(** ** MapComponent: the rectangle overlay *)

Module MapComponent.

(** What [layer.getBounds()] answers. *)
Record LatLngBounds := {
  getNorth : Num.t;
  getSouth : Num.t;
  getEast : Num.t;
  getWest : Num.t;
}.

(** The object handed to [onBoundsChange] by [onCreate], [onEdited] and the
    [edit] listener of the drawn rectangle. *)
Definition published (b : LatLngBounds) : obj :=
  [ (js "north", VNum (getNorth b)); (js "south", VNum (getSouth b));
    (js "east", VNum (getEast b)); (js "west", VNum (getWest b)) ].

(** [onCreate]: only a rectangle publishes its bounds. *)
Definition onCreate (layerType : Str.t) (layer : LatLngBounds) : option obj :=
  if Str.eqb layerType (js "rectangle") then Some (published layer) else None.

(** [onEdited]: one call of [onBoundsChange] per edited layer, in order. *)
Definition onEdited (layers : list LatLngBounds) : list obj :=
  List.map published layers.

(** The guard of the effect, once the map is mounted: [bounds] is there
    and its four fields are Numbers. *)
Definition numeric (bounds : option obj) : bool :=
  JS.ToBoolean (JS.ofBounds bounds)
  && JS.isNumber (JS.optGet (JS.ofBounds bounds) (js "north"))
  && JS.isNumber (JS.optGet (JS.ofBounds bounds) (js "south"))
  && JS.isNumber (JS.optGet (JS.ofBounds bounds) (js "east"))
  && JS.isNumber (JS.optGet (JS.ofBounds bounds) (js "west")).

(** [a > b] on two values that are Numbers. *)
Definition gtNum (a b : jsval) : bool :=
  match a, b with
  | VNum x, VNum y => JS.gt x y
  | _, _ => false
  end.

(** "Validate bounds before creating rectangle":
    [bounds.north > bounds.south && bounds.east > bounds.west], under the
    guard above. *)
Definition valid (bounds : option obj) : bool :=
  numeric bounds
  && gtNum (JS.optGet (JS.ofBounds bounds) (js "north"))
           (JS.optGet (JS.ofBounds bounds) (js "south"))
  && gtNum (JS.optGet (JS.ofBounds bounds) (js "east"))
           (JS.optGet (JS.ofBounds bounds) (js "west")).

(** The effect on the layers of the feature group, each layer given by its
    corners [(south, west, north, east)]: numeric bounds clear the group,
    and valid ones then draw one rectangle. *)
Definition effect (bounds : option obj) (layers : list (list jsval))
  : list (list jsval) :=
  if numeric bounds then
    if valid bounds
    then [List.map (JS.optGet (JS.ofBounds bounds))
            [js "south"; js "west"; js "north"; js "east"]]
    else []
  else layers.

End MapComponent.

(** ** DataPreview: the preview table *)

Module DataPreview.

Record table := {
  headers : list Str.t;
  dataRows : list (list Str.t);
}.

(** What the component renders: nothing ([null]), the table, or the
    TypeError of calling [trim] on a value that has no such method. *)
Inductive rendered :=
| Nothing
| Table (t : table)
| TypeError.

(** [a.slice(start, stop)] for indices that are not negative. *)
Definition slice {A} (start stop : nat) (a : list A) : list A :=
  firstn (stop - start) (skipn start a).

(** The component: [rows], [headers] and [dataRows] as computed in its
    body, and each data row split on commas as in the table body. *)
Definition render (csvData : jsval) : rendered :=
  if negb (JS.ToBoolean csvData) then Nothing
  else
    match csvData with
    | VStr s =>
        let rows := Str.split 10 (Str.trim s) in
        match rows with
        | row0 :: _ =>
            Table {| headers := Str.split 44 row0;
                     dataRows := List.map (Str.split 44) (slice 1 11 rows) |}
        | [] => TypeError
        end
    | _ => TypeError
    end.

End DataPreview.

(** ** App: the submit handler and the WebSocket session *)

Module App.

Inductive ReadyState := CONNECTING | OPEN | CLOSING | CLOSED.

(** A [WebSocket] made by [handleSubmit].  Its three handlers are closures
    of that call: they see the [bounds] and [params] of the render in
    which the submit was clicked, whatever the state holds later. *)
Record WebSocket := {
  url : Str.t;
  readyState : ReadyState;
  closureBounds : option obj;
  closureParams : obj;
  sent : list json;          (* the documents handed to [ws.send], in order *)
  closeCalls : nat;          (* the calls of [ws.close()] *)
}.

(** A [Blob]: its bytes and its media type. *)
Record Blob := {
  blobBytes : list N;
  blobType : Str.t;
}.

(** [new Blob(parts, { type })] for string parts, each written in UTF-8,
    and a type in lower case. *)
Definition newBlob (parts : list Str.t) (type : Str.t) : Blob :=
  {| blobBytes := List.concat (List.map Str.utf8 parts); blobType := type |}.

(** A click on a link that has the [download] attribute. *)
Record Download := {
  href : Blob;
  download : Str.t;
}.

(** The state of the component ([useState]) and what it has done to the
    page: the sockets it has made, the alerts it has shown, the downloads
    it has started and the lines it has written with [console.error]. *)
Record World := {
  bounds : option obj;
  params : obj;
  loading : bool;
  previewData : jsval;
  logs : list jsval;
  sockets : list WebSocket;
  alerts : list Str.t;
  downloads : list Download;
  consoleErrors : nat;
}.

Definition initialParams : obj :=
  [ (js "startDate", VStr (js "2020-01-01"));
    (js "endDate", VStr (js "2024-12-31"));
    (js "minDepth", VNum 0%float);
    (js "maxDepth", VNum 2000%float);
    (js "type", VStr (js "core"));
    (js "variables", VArr [VStr (js "Temp"); VStr (js "Psal")]) ].

Definition initial : World :=
  {| bounds := None; params := initialParams; loading := false;
     previewData := VNull; logs := []; sockets := []; alerts := [];
     downloads := []; consoleErrors := 0%nat |}.

(** *** State setters *)

Definition setBounds (b : option obj) (w : World) : World :=
  {| bounds := b; params := params w; loading := loading w;
     previewData := previewData w; logs := logs w; sockets := sockets w;
     alerts := alerts w; downloads := downloads w;
     consoleErrors := consoleErrors w |}.

Definition setParams (p : obj) (w : World) : World :=
  {| bounds := bounds w; params := p; loading := loading w;
     previewData := previewData w; logs := logs w; sockets := sockets w;
     alerts := alerts w; downloads := downloads w;
     consoleErrors := consoleErrors w |}.

Definition setLoading (b : bool) (w : World) : World :=
  {| bounds := bounds w; params := params w; loading := b;
     previewData := previewData w; logs := logs w; sockets := sockets w;
     alerts := alerts w; downloads := downloads w;
     consoleErrors := consoleErrors w |}.

Definition setPreviewData (v : jsval) (w : World) : World :=
  {| bounds := bounds w; params := params w; loading := loading w;
     previewData := v; logs := logs w; sockets := sockets w;
     alerts := alerts w; downloads := downloads w;
     consoleErrors := consoleErrors w |}.

(** [setLogs] takes the new value or, as in [setLogs(prev => ...)], a
    function of the current one. *)
Definition setLogs (f : list jsval -> list jsval) (w : World) : World :=
  {| bounds := bounds w; params := params w; loading := loading w;
     previewData := previewData w; logs := f (logs w); sockets := sockets w;
     alerts := alerts w; downloads := downloads w;
     consoleErrors := consoleErrors w |}.

Definition setSockets (l : list WebSocket) (w : World) : World :=
  {| bounds := bounds w; params := params w; loading := loading w;
     previewData := previewData w; logs := logs w; sockets := l;
     alerts := alerts w; downloads := downloads w;
     consoleErrors := consoleErrors w |}.

(** [alert(text)] *)
Definition alert (text : Str.t) (w : World) : World :=
  {| bounds := bounds w; params := params w; loading := loading w;
     previewData := previewData w; logs := logs w; sockets := sockets w;
     alerts := alerts w ++ [text]; downloads := downloads w;
     consoleErrors := consoleErrors w |}.

(** [link.click()] *)
Definition click (d : Download) (w : World) : World :=
  {| bounds := bounds w; params := params w; loading := loading w;
     previewData := previewData w; logs := logs w; sockets := sockets w;
     alerts := alerts w; downloads := downloads w ++ [d];
     consoleErrors := consoleErrors w |}.

(** [console.error(...)] *)
Definition consoleError (w : World) : World :=
  {| bounds := bounds w; params := params w; loading := loading w;
     previewData := previewData w; logs := logs w; sockets := sockets w;
     alerts := alerts w; downloads := downloads w;
     consoleErrors := S (consoleErrors w) |}.

(** *** The WebSocket interface *)

Definition withReadyState (r : ReadyState) (ws : WebSocket) : WebSocket :=
  {| url := url ws; readyState := r; closureBounds := closureBounds ws;
     closureParams := closureParams ws; sent := sent ws;
     closeCalls := closeCalls ws |}.

(** [new WebSocket(url)], with the values its handlers close over. *)
Definition newWebSocket (u : Str.t) (b : option obj) (p : obj) : WebSocket :=
  {| url := u; readyState := CONNECTING; closureBounds := b;
     closureParams := p; sent := []; closeCalls := 0%nat |}.

(** [ws.send(doc)] *)
Definition send (doc : json) (ws : WebSocket) : WebSocket :=
  {| url := url ws; readyState := readyState ws;
     closureBounds := closureBounds ws; closureParams := closureParams ws;
     sent := sent ws ++ [doc]; closeCalls := closeCalls ws |}.

(** [ws.close()]: the closing handshake starts unless the socket is
    closing or closed already. *)
Definition close (ws : WebSocket) : WebSocket :=
  {| url := url ws;
     readyState := match readyState ws with
                   | CONNECTING | OPEN | CLOSING => CLOSING
                   | CLOSED => CLOSED
                   end;
     closureBounds := closureBounds ws; closureParams := closureParams ws;
     sent := sent ws; closeCalls := S (closeCalls ws) |}.

(** The socket [id] is replaced by [f] of it. *)
Definition onSocket (id : nat) (f : WebSocket -> WebSocket) (w : World) : World :=
  match sockets w !! id with
  | Some ws => setSockets (<[id := f ws]> (sockets w)) w
  | None => w
  end.

(** *** Handlers *)

(** [handleBoundsChange], also the [onBoundsChange] of the map. *)
Definition handleBoundsChange (newBounds : obj) (w : World) : World :=
  setBounds (Some newBounds) w.

Definition endpoint : Str.t := js "ws://localhost:8000/api/ws".

(** [handleSubmit] up to the point where the handlers are installed. *)
Definition handleSubmit (w : World) : World :=
  if negb (JS.ToBoolean (JS.ofBounds (bounds w))) then
    alert (js "Please select an area on the map first") w
  else
    let w1 := setLoading true w in
    let w2 := setPreviewData VNull w1 in
    let w3 := setLogs (fun _ => [VStr (js "Initializing connection...")]) w2 in
    setSockets (sockets w3 ++ [newWebSocket endpoint (bounds w) (params w)]) w3.

(** The document of [JSON.stringify({ bounds, params })]. *)
Definition request (b : option obj) (p : obj) : json :=
  match JS.stringify (VObj [ (js "bounds", JS.ofBounds b);
                             (js "params", VObj p) ]) with
  | Some doc => doc
  | None => JNull
  end.

(** [ws.onopen] *)
Definition onopen (id : nat) (w : World) : World :=
  onSocket id (fun ws => send (request (closureBounds ws) (closureParams ws)) ws) w.

Definition BOM : Str.t := [65279%N].

Definition csvType : Str.t := js "text/csv;charset=utf-8;".

(** [ws.onmessage], on the value [JSON.parse(event.data)] gave, [None]
    when it threw.  An exception ends the handler where it is thrown and
    leaves what was done before it. *)
Definition onmessage (id : nat) (parsed : option jsval) (w : World) : World :=
  match parsed with
  | None => w
  | Some data =>
      match JS.Get data (js "type") with
      | None => w
      | Some type =>
          if JS.strictEqStr type (js "log") then
            setLogs (fun prev => prev ++ [JS.optGet data (js "message")]) w
          else if JS.strictEqStr type (js "error") then
            match JS.concat (js "Error: ") (JS.optGet data (js "message")) with
            | None => w
            | Some text =>
                let w1 := alert text w in
                let w2 := setLoading false w1 in
                onSocket id close w2
            end
          else if JS.strictEqStr type (js "complete") then
            match JS.concat BOM (JS.optGet data (js "csv")) with
            | None => w
            | Some content =>
                let blob := newBlob [content] csvType in
                match JS.ToString (JS.optGet data (js "filename")) with
                | None => w
                | Some name =>
                    let w1 := click {| href := blob; download := name |} w in
                    let w2 := setPreviewData (JS.optGet data (js "csv")) w1 in
                    let w3 := setLoading false w2 in
                    onSocket id close w3
                end
            end
          else w
      end
  end.

(** [ws.onerror] *)
Definition onerror (w : World) : World :=
  let w1 := consoleError w in
  let w2 := setLoading false w1 in
  alert (js "Connection failed.") w2.

(** The [onClose] of the preview: [setPreviewData(null)]. *)
Definition closePreview (w : World) : World := setPreviewData VNull w.

(** *** Events *)

(** What happens to the page: the user acts on the side bar or the map,
    or the browser reports on a socket. *)
Inductive event :=
| FieldBounds (name value : Str.t)
| FieldParam (name value : Str.t)
| TypeButton (bio : bool)
| RectangleDrawn (layer : MapComponent.LatLngBounds)
| Submit
| ClosePreview
| WsOpen (id : nat)
| WsMessage (id : nat) (parsed : option jsval)
| WsError (id : nat)
| WsClose (id : nat).

Definition readyStateOf (id : nat) (w : World) : option ReadyState :=
  readyState <$> sockets w !! id.

(** One event.  A field event carries the [value] of its input, which for
    the four boundary inputs, of type [number], is [Input.numberValue] of
    what was entered.  The browser opens a socket that is connecting,
    delivers messages to an open one only, reports an error on a socket that
    is not closed yet once it has closed it, and closes a socket that is
    not closed; [None] when the browser does not raise the event.  No
    [onclose] handler is installed, so a close runs no code of the page. *)
Definition step (w : World) (e : event) : option World :=
  match e with
  | FieldBounds name value =>
      Some match Sidebar.handleBoundsChange (bounds w) name value with
           | Some newBounds => handleBoundsChange newBounds w
           | None => w
           end
  | FieldParam name value =>
      Some (setParams (Sidebar.handleChange (params w) name value) w)
  | TypeButton bio =>
      Some (setParams (Sidebar.handleTypeChange (params w)
                         (js (if bio then "bio" else "core"))) w)
  | RectangleDrawn layer =>
      Some (handleBoundsChange (MapComponent.published layer) w)
  | Submit => Some (handleSubmit w)
  | ClosePreview => Some (closePreview w)
  | WsOpen id =>
      match readyStateOf id w with
      | Some CONNECTING => Some (onopen id (onSocket id (withReadyState OPEN) w))
      | _ => None
      end
  | WsMessage id parsed =>
      match readyStateOf id w with
      | Some OPEN => Some (onmessage id parsed w)
      | _ => None
      end
  | WsError id =>
      match readyStateOf id w with
      | Some CONNECTING | Some OPEN | Some CLOSING =>
          Some (onerror (onSocket id (withReadyState CLOSED) w))
      | _ => None
      end
  | WsClose id =>
      match readyStateOf id w with
      | Some CONNECTING | Some OPEN | Some CLOSING =>
          Some (onSocket id (withReadyState CLOSED) w)
      | _ => None
      end
  end.

(** A sequence of events from a state. *)
Fixpoint run (w : World) (es : list event) : option World :=
  match es with
  | [] => Some w
  | e :: r => match step w e with
              | Some w' => run w' r
              | None => None
              end
  end.

(** *** Observations *)

Definition isLive (ws : WebSocket) : bool :=
  match readyState ws with
  | CONNECTING | OPEN => true
  | _ => false
  end.

(** The sockets that are connecting or open. *)
Definition liveSockets (w : World) : nat :=
  length (List.filter isLive (sockets w)).

(** All the calls of [close()] the page has made. *)
Definition totalCloseCalls (w : World) : nat :=
  list_sum (List.map closeCalls (sockets w)).

End App.

(** ** AppHttp: the request/response variant of the submit handler *)

(** This variant of the component has the same state but for the logs, and
    makes no socket: those two fields of the world stay as they are. *)

Module AppHttp.

Import App.

(** What a [catch] receives: [error.response?.data?.error] and
    [error.message]. *)
Record Thrown := {
  responseError : jsval;
  message : jsval;
}.

(** How the awaited [axios.post] ends: with the body as a [Blob], the text
    [response.data.text()] resolves to and the time [Date.now()] tells when
    the link is made, or with an error. *)
Inductive outcome :=
| Fulfilled (data : Blob) (text : Str.t) (now : Num.t)
| Rejected (error : Thrown).

(** [handleSubmit] up to the first [await]: whether the request is posted. *)
Definition handleSubmit (w : World) : World * bool :=
  if negb (JS.ToBoolean (JS.ofBounds (bounds w))) then
    (alert (js "Please select an area on the map first") w, false)
  else (setPreviewData VNull (setLoading true w), true).

(** [`argo_${params.type}_data_${Date.now()}.csv`] *)
Definition fileName (p : obj) (now : Num.t) : option Str.t :=
  JS.ToString (JS.lookup (js "type") p) ≫= fun type =>
  Some (js "argo_" ++ type ++ js "_data_" ++ Num.toString now ++ js ".csv").

(** The [catch] block. *)
Definition catch (error : Thrown) (w : World) : World :=
  let w1 := consoleError w in
  match JS.concat (js "Failed to process data: ")
          (JS.or (responseError error) (message error)) with
  | Some text => setLoading false (alert text w1)
  | None => w1
  end.

(** The TypeError of a template literal whose value does not convert, with
    the message V8 gives it. *)
Definition conversionError : Thrown :=
  {| responseError := VUndefined;
     message := VStr (js "Cannot convert object to primitive value") |}.

(** The rest of [handleSubmit], run with the [params] of the render in
    which the submit was clicked. *)
Definition resume (p : obj) (o : outcome) (w : World) : World :=
  match o with
  | Fulfilled data text now =>
      let w1 := setPreviewData (VStr text) w in
      match fileName p now with
      | Some name =>
          setLoading false (click {| href := data; download := name |} w1)
      | None => catch conversionError w1
      end
  | Rejected error => catch error w
  end.

End AppHttp.

(** ** Sessions and sample inputs *)

Module Session.

Import App.

(** What holds of every socket the page has made: the request is sent when
    the socket opens and only then, and [close()] is called at most once, on
    an open socket. *)
Definition wellFormed (ws : WebSocket) : Prop :=
  match readyState ws with
  | CONNECTING => sent ws = [] /\ closeCalls ws = 0%nat
  | OPEN =>
      sent ws = [request (closureBounds ws) (closureParams ws)]
      /\ closeCalls ws = 0%nat
  | CLOSING =>
      sent ws = [request (closureBounds ws) (closureParams ws)]
      /\ closeCalls ws = 1%nat
  | CLOSED =>
      (sent ws = [] \/ sent ws = [request (closureBounds ws) (closureParams ws)])
      /\ (closeCalls ws <= 1)%nat
  end.

(** The inbound events of the service. *)
Definition logEvent (message : jsval) : jsval :=
  VObj [ (js "type", VStr (js "log")); (js "message", message) ].

Definition errorEvent (message : jsval) : jsval :=
  VObj [ (js "type", VStr (js "error")); (js "message", message) ].

Definition completeEvent (csv filename : jsval) : jsval :=
  VObj [ (js "type", VStr (js "complete")); (js "csv", csv);
         (js "filename", filename) ].

(** Progress events on the session [id], one for each message. *)
Definition progress (id : nat) (messages : list jsval) : list event :=
  List.map (fun m => WsMessage id (Some (logEvent m))) messages.

(** The properties [JSON.stringify] writes for an object. *)
Definition written (o : obj) : list (Str.t * json) :=
  match JS.stringify (VObj o) with
  | Some (JObj props) => props
  | _ => []
  end.




(** A rectangle drawn over the Arabian Sea. *)
Definition arabianSea : MapComponent.LatLngBounds :=
  {| MapComponent.getNorth := 25%float; MapComponent.getSouth := 5%float;
     MapComponent.getEast := 75%float; MapComponent.getWest := 55%float |}.

(** The page while its first session is running. *)
Definition running : World :=
  default initial (run initial [RectangleDrawn arabianSea; Submit; WsOpen 0]).








(** A payload of a header line and fifteen data lines, each line ended by a
    line feed. *)
Definition sampleHeader : Str.t := js "A,B,C".

Definition sampleRows : list Str.t :=
  List.map (fun n => Str.ofN (N.of_nat n) ++ js ",x,y") (seq 1 15).

Definition samplePayload : Str.t :=
  Str.join [10%N] (sampleHeader :: sampleRows) ++ [10%N].

(** No line feed in any of the lines. *)
Definition singleLines (lines : list Str.t) : bool :=
  forallb (fun l => negb (existsb (N.eqb 10) l)) lines.

End Session.

(** ** The page as a whole: wiring and observations *)

Module Page.

Import App.

(** The names of the four boundary inputs. *)
Definition boundNames : list Str.t :=
  [ js "north"; js "south"; js "east"; js "west" ].

(** [onEdited] as the app receives it: [layers.eachLayer] calls
    [onBoundsChange], which is [setBounds], once for each edited layer. *)
Definition edited (layers : list MapComponent.LatLngBounds) (w : World) : World :=
  fold_left (fun w' o => handleBoundsChange o w') (MapComponent.onEdited layers) w.

(** The events of the user on the side bar, the map and the preview, all but
    the submit. *)
Definition isUserEdit (e : event) : bool :=
  match e with
  | FieldBounds _ _ | FieldParam _ _ | TypeButton _ | RectangleDrawn _
  | ClosePreview => true
  | _ => false
  end.

(** The socket an event of the browser is raised on. *)
Definition socketOf (e : event) : option nat :=
  match e with
  | WsOpen id | WsMessage id _ | WsError id | WsClose id => Some id
  | _ => None
  end.

(** The three values of [data.type] that [ws.onmessage] acts on. *)
Definition isKnownType (type : jsval) : bool :=
  JS.strictEqStr type (js "log") || JS.strictEqStr type (js "error")
  || JS.strictEqStr type (js "complete").

(** What the place of the preview shows. *)
Inductive shown :=
| ShowsNothing
| ShowsText (text : Str.t)
| ShowsTable (t : DataPreview.table)
| Throws.

(** [{previewData && <DataPreview csvData={previewData} />}]: a value that
    is true as a condition goes to the component; one that is false is
    itself what React is given to render, which is text for a Number (0 and
    NaN) and nothing for the rest. *)
Definition previewSlot (previewData : jsval) : shown :=
  if JS.ToBoolean previewData then
    match DataPreview.render previewData with
    | DataPreview.Table t => ShowsTable t
    | DataPreview.Nothing => ShowsNothing
    | DataPreview.TypeError => Throws
    end
  else
    match previewData with
    | VNum x => ShowsText (Num.toString x)
    | _ => ShowsNothing
    end.

(** The commas of a line. *)
Definition commas (line : Str.t) : nat := count_occ N.eq_dec line 44%N.

(** Nothing but white space. *)
Definition blank (s : Str.t) : bool := forallb Str.isWhite s.

(** The state is as the page starts: no socket, nothing loading, nothing
    logged, downloaded or previewed. *)
Definition quiet (w : World) : Prop :=
  sockets w = [] /\ loading w = false /\ logs w = [] /\ downloads w = []
  /\ previewData w = VNull.

End Page.

(** * Properties *)

(** ** Strings *)

Section StringFacts.

Lemma str_eqb_eq (a b : Str.t) : Str.eqb a b = true <-> a = b.
Proof.
  revert b; induction a as [|x a IH]; intros [|y b]; simpl; split;
    try congruence; try discriminate.
  - intros H. apply andb_true_iff in H as [Hx Hr].
    apply N.eqb_eq in Hx. apply IH in Hr. congruence.
  - intros H. injection H as -> ->. rewrite N.eqb_refl. simpl. now apply IH.
Qed.

Lemma str_eqb_refl (a : Str.t) : Str.eqb a a = true.
Proof. now apply str_eqb_eq. Qed.

Lemma str_eqb_neq (a b : Str.t) : Str.eqb a b = false <-> a <> b.
Proof.
  split.
  - intros H E. apply str_eqb_eq in E. congruence.
  - intros H. destruct (Str.eqb a b) eqn:E; [|reflexivity].
    apply str_eqb_eq in E. contradiction.
Qed.

End StringFacts.

(** ** Property lists *)

Section ObjectFacts.

Lemma lookup_set_eq (k : Str.t) (v : jsval) (o : obj) :
  JS.lookup k (JS.set k v o) = v.
Proof.
  induction o as [|[k' v'] r IH]; simpl.
  - now rewrite str_eqb_refl.
  - destruct (Str.eqb k' k) eqn:E; simpl; rewrite E; [reflexivity | exact IH].
Qed.

Lemma lookup_set_ne (k k' : Str.t) (v : jsval) (o : obj) :
  k' <> k -> JS.lookup k' (JS.set k v o) = JS.lookup k' o.
Proof.
  intros Hne. induction o as [|[k0 v0] r IH]; simpl.
  - apply str_eqb_neq in Hne.
    destruct (Str.eqb k k') eqn:E; [|reflexivity].
    apply str_eqb_eq in E. apply str_eqb_neq in Hne. congruence.
  - destruct (Str.eqb k0 k) eqn:E; simpl.
    + apply str_eqb_eq in E. subst k0.
      destruct (Str.eqb k k') eqn:E'; [|reflexivity].
      apply str_eqb_eq in E'. congruence.
    + destruct (Str.eqb k0 k'); [reflexivity | exact IH].
Qed.

(** Setting a property keeps the other property names, in their order. *)
Lemma keys_set_present (k : Str.t) (v : jsval) (o : obj) :
  JS.hasOwn k o = true -> List.map fst (JS.set k v o) = List.map fst o.
Proof.
  induction o as [|[k0 v0] r IH]; simpl; [discriminate|].
  destruct (Str.eqb k0 k) eqn:E; simpl; [reflexivity|].
  intros H. now rewrite IH.
Qed.

End ObjectFacts.

(** ** Numbers and number inputs *)

Section NumberFacts.
















(** The value of a number input: what is no valid floating-point number
    reads as the empty string, also where [parseFloat] would have taken a
    prefix of it. *)
Lemma numberValue_examples :
  Input.numberValue (js "12.5") = js "12.5"
  /\ Input.numberValue (js "-.5e3") = js "-.5e3"
  /\ Input.numberValue (js "abc") = []
  /\ Input.numberValue (js "12abc") = []
  /\ Input.numberValue (js "1.") = []
  /\ Input.numberValue (js "+5") = []
  /\ Input.numberValue [] = [].
Proof. repeat split. Qed.

(** The handler is given the empty string or a valid number. *)
Lemma numberValue_cases (raw : Str.t) :
  Input.numberValue raw = []
  \/ Input.validFloat (Input.numberValue raw) = true.
Proof.
  unfold Input.numberValue.
  destruct (Input.validFloat raw) eqn:E; [right; exact E | left; reflexivity].
Qed.


End NumberFacts.

(** ** Sidebar *)

(** C10.  A boundary field that holds the number 0 is shown as the empty
    string, because [bounds?.field || ''] takes 0 for false; this is also
    what a field that is unset (the empty string, or no property at all)
    shows, so the two cannot be told apart in the input. *)
Theorem zero_field_shown_empty (bounds : option obj) (name : Str.t) :
  JS.optGet (JS.ofBounds bounds) name = VNum 0%float ->
  Sidebar.fieldValue bounds name = VStr []
  /\ forall unset : option obj,
       JS.optGet (JS.ofBounds unset) name = VStr []
       \/ JS.optGet (JS.ofBounds unset) name = VUndefined ->
       Sidebar.fieldValue unset name = Sidebar.fieldValue bounds name.
Proof.
  intros H0. unfold Sidebar.fieldValue, JS.or. rewrite H0.
  split; [reflexivity|].
  intros unset [H | H]; rewrite H; reflexivity.
Qed.

(** The bounds after "0" is typed into the north field of a fresh form hold
    the number 0 there, and the field shows the empty string. *)
Lemma zero_field_shown_empty_witness :
  Sidebar.handleBoundsChange None (js "north") (js "0")
    = Some [(js "north", VNum 0%float)]
  /\ Sidebar.fieldValue (Some [(js "north", VNum 0%float)]) (js "north") = VStr [].
Proof.
  split; [vm_compute; reflexivity|].
  apply (proj1 (zero_field_shown_empty
                  (Some [(js "north", VNum 0%float)]) (js "north") eq_refl)).
Defined.

(** ** App: state setters and sockets *)

Section SocketFacts.

Import App.

Lemma onSocket_sockets (id : nat) (f : WebSocket -> WebSocket) (w : World)
    (ws : WebSocket) :
  sockets w !! id = Some ws ->
  sockets (onSocket id f w) = <[id := f ws]> (sockets w).
Proof. intros H. unfold onSocket. now rewrite H. Qed.

Lemma onSocket_state (id : nat) (f : WebSocket -> WebSocket) (w : World) :
  bounds (onSocket id f w) = bounds w
  /\ params (onSocket id f w) = params w
  /\ loading (onSocket id f w) = loading w
  /\ previewData (onSocket id f w) = previewData w
  /\ logs (onSocket id f w) = logs w
  /\ alerts (onSocket id f w) = alerts w
  /\ downloads (onSocket id f w) = downloads w
  /\ length (sockets (onSocket id f w)) = length (sockets w).
Proof.
  unfold onSocket. destruct (sockets w !! id) as [ws|]; simpl;
    repeat split; try reflexivity.
  apply length_insert.
Qed.

Lemma readyStateOf_onSocket (id : nat) (f : WebSocket -> WebSocket)
    (w : World) (ws : WebSocket) :
  sockets w !! id = Some ws ->
  readyStateOf id (onSocket id f w) = Some (readyState (f ws)).
Proof.
  intros H. unfold readyStateOf. rewrite (onSocket_sockets _ _ _ _ H).
  rewrite list_lookup_insert_eq; [reflexivity|].
  now apply lookup_lt_Some in H.
Qed.

Lemma readyStateOf_Some (id : nat) (w : World) (r : ReadyState) :
  readyStateOf id w = Some r ->
  exists ws, sockets w !! id = Some ws /\ readyState ws = r.
Proof.
  unfold readyStateOf. destruct (sockets w !! id) as [ws|]; simpl; [|discriminate].
  intros [= <-]. now exists ws.
Qed.

(** Replacing one socket changes the count of [close()] calls by the
    difference on that socket. *)
Lemma closeCalls_insert (l : list WebSocket) (id : nat) (ws ws' : WebSocket) :
  l !! id = Some ws ->
  (list_sum (List.map closeCalls (<[id := ws']> l)) + closeCalls ws
   = list_sum (List.map closeCalls l) + closeCalls ws')%nat.
Proof.
  revert id. induction l as [|x l IH]; intros [|id] H; simpl in *;
    try discriminate.
  - injection H as ->. lia.
  - specialize (IH id H). lia.
Qed.

Lemma liveSockets_insert (l : list WebSocket) (id : nat) (ws ws' : WebSocket) :
  l !! id = Some ws ->
  isLive ws' = isLive ws ->
  length (List.filter isLive (<[id := ws']> l)) = length (List.filter isLive l).
Proof.
  revert id. induction l as [|x l IH]; intros [|id] H E; simpl in *;
    try discriminate.
  - injection H as ->. rewrite E. destruct (isLive ws); reflexivity.
  - specialize (IH id H E). destruct (isLive x); simpl; lia.
Qed.

Lemma liveSockets_insert_dead (l : list WebSocket) (id : nat)
    (ws ws' : WebSocket) :
  l !! id = Some ws ->
  isLive ws = true ->
  isLive ws' = false ->
  S (length (List.filter isLive (<[id := ws']> l)))
  = length (List.filter isLive l).
Proof.
  revert id. induction l as [|x l IH]; intros [|id] H E E'; simpl in *;
    try discriminate.
  - injection H as ->. now rewrite E, E'.
  - specialize (IH id H E E'). destruct (isLive x); simpl; lia.
Qed.

End SocketFacts.

(** ** App: submit *)

Section Submit.

Import App.

(** C1 as amended.  A submit while [bounds] is absent ([null]) opens no
    channel: the only thing it does is show the validation alert, and the
    state of the component, [loading] included, stays what it was. *)
Theorem submit_without_bounds_opens_nothing (w : World) :
  bounds w = None ->
  handleSubmit w = alert (js "Please select an area on the map first") w
  /\ sockets (handleSubmit w) = sockets w
  /\ alerts (handleSubmit w)
     = alerts w ++ [js "Please select an area on the map first"]
  /\ loading (handleSubmit w) = loading w
  /\ previewData (handleSubmit w) = previewData w
  /\ logs (handleSubmit w) = logs w.
Proof.
  intros H. unfold handleSubmit. rewrite H. simpl. repeat split.
Qed.

Lemma submit_without_bounds_opens_nothing_witness :
  sockets (handleSubmit initial) = []
  /\ loading (handleSubmit initial) = false.
Proof.
  destruct (submit_without_bounds_opens_nothing initial eq_refl)
    as (_ & Hs & _ & Hl & _).
  split; [exact Hs | exact Hl].
Defined.

(** A submit while [bounds] is an object, whatever its fields hold, makes one
    new connecting socket that closes over the current [bounds] and
    [params], and touches no socket made before. *)
Lemma submit_with_bounds (w : World) (o : obj) :
  bounds w = Some o ->
  sockets (handleSubmit w)
    = sockets w ++ [newWebSocket endpoint (Some o) (params w)]
  /\ loading (handleSubmit w) = true
  /\ previewData (handleSubmit w) = VNull
  /\ logs (handleSubmit w) = [VStr (js "Initializing connection...")]
  /\ alerts (handleSubmit w) = alerts w
  /\ downloads (handleSubmit w) = downloads w.
Proof.
  intros H. unfold handleSubmit. rewrite H. simpl. repeat split.
Qed.

(** C1 as stated fails: after the north field is typed into and cleared,
    [bounds] is an object whose north is the empty string and whose other
    fields are missing; it is not valid, and yet the submit opens a channel
    and shows no alert. *)
Lemma submit_partial_bounds_opens_channel :
  exists w,
    run initial [ FieldBounds (js "north") (js "12");
                  FieldBounds (js "north") (js ""); Submit ] = Some w
    /\ bounds w = Some [(js "north", VStr [])]
    /\ MapComponent.valid (bounds w) = false
    /\ length (sockets w) = 1%nat
    /\ liveSockets w = 1%nat
    /\ alerts w = []
    /\ loading w = true.
Proof. eexists. vm_compute. repeat split. Qed.

(** C2 as amended.  A submit with [bounds] present opens its channel without
    closing any: every socket made before is exactly as it was, no [close()]
    is called, and there is one more live socket than before. *)
Theorem resubmit_keeps_prior_channels (w : World) (o : obj) :
  bounds w = Some o ->
  (forall id ws, sockets w !! id = Some ws ->
                 sockets (handleSubmit w) !! id = Some ws)
  /\ length (sockets (handleSubmit w)) = S (length (sockets w))
  /\ readyStateOf (length (sockets w)) (handleSubmit w) = Some CONNECTING
  /\ totalCloseCalls (handleSubmit w) = totalCloseCalls w
  /\ liveSockets (handleSubmit w) = S (liveSockets w).
Proof.
  intros H. destruct (submit_with_bounds w o H) as (Hs & _).
  unfold readyStateOf, totalCloseCalls, liveSockets. rewrite Hs.
  repeat split.
  - intros id ws Hid. now apply lookup_app_l_Some.
  - rewrite length_app. simpl. lia.
  - rewrite lookup_app_r by lia. now rewrite Nat.sub_diag.
  - rewrite List.map_app, list_sum_app. simpl. lia.
  - rewrite List.filter_app, length_app. simpl. lia.
Qed.

(** A second submit while the first session is running. *)
Lemma resubmit_keeps_prior_channels_witness :
  bounds Session.running = Some (MapComponent.published Session.arabianSea)
  /\ readyStateOf 0 (handleSubmit Session.running) = Some OPEN
  /\ liveSockets Session.running = 1%nat
  /\ liveSockets (handleSubmit Session.running) = 2%nat
  /\ totalCloseCalls (handleSubmit Session.running) = 0%nat.
Proof.
  destruct (resubmit_keeps_prior_channels Session.running
              (MapComponent.published Session.arabianSea) eq_refl)
    as (Hprior & _ & _ & Hc & Hlive).
  split; [reflexivity|].
  split; [unfold readyStateOf; now rewrite (Hprior 0%nat _ eq_refl)|].
  split; [reflexivity|].
  split; [exact Hlive | exact Hc].
Defined.

(** C2 as stated fails: a second submit while the first session is running
    leaves two channels open at once, and nothing was closed. *)
Lemma resubmit_two_live_channels :
  exists w,
    run initial [ RectangleDrawn Session.arabianSea; Submit; WsOpen 0;
                  Submit; WsOpen 1 ] = Some w
    /\ readyStateOf 0 w = Some OPEN
    /\ readyStateOf 1 w = Some OPEN
    /\ liveSockets w = 2%nat
    /\ totalCloseCalls w = 0%nat.
Proof. eexists. vm_compute. repeat split. Qed.

End Submit.

(** ** App: what each socket event does *)

Section SocketEvents.

Import App.

Lemma step_WsOpen (w : World) (id : nat) (ws : WebSocket) :
  sockets w !! id = Some ws ->
  readyState ws = CONNECTING ->
  step w (WsOpen id)
  = Some (setSockets
            (<[id := send (request (closureBounds ws) (closureParams ws))
                       (withReadyState OPEN ws)]> (sockets w)) w).
Proof.
  intros H Hr. unfold step, readyStateOf. rewrite H. simpl. rewrite Hr.
  unfold onopen, onSocket. rewrite H. simpl.
  rewrite list_lookup_insert_eq by (now apply lookup_lt_Some in H).
  simpl. now rewrite list_insert_insert_eq.
Qed.

Lemma step_WsError (w : World) (id : nat) (ws : WebSocket) :
  sockets w !! id = Some ws ->
  readyState ws = CONNECTING \/ readyState ws = OPEN ->
  step w (WsError id)
  = Some (onerror (setSockets (<[id := withReadyState CLOSED ws]> (sockets w)) w)).
Proof.
  intros H Hr. unfold step, readyStateOf. rewrite H. simpl.
  unfold onSocket. rewrite H. now destruct Hr as [-> | ->].
Qed.

Lemma step_WsClose (w : World) (id : nat) (ws : WebSocket) :
  sockets w !! id = Some ws ->
  readyState ws <> CLOSED ->
  step w (WsClose id)
  = Some (setSockets (<[id := withReadyState CLOSED ws]> (sockets w)) w).
Proof.
  intros H Hr. unfold step, readyStateOf. rewrite H. simpl.
  unfold onSocket. rewrite H. now destruct (readyState ws).
Qed.

Lemma step_WsMessage (w : World) (id : nat) (ws : WebSocket)
    (parsed : option jsval) :
  sockets w !! id = Some ws ->
  readyState ws = OPEN ->
  step w (WsMessage id parsed) = Some (onmessage id parsed w).
Proof.
  intros H Hr. unfold step, readyStateOf. rewrite H. simpl. now rewrite Hr.
Qed.

(** No open and no message is raised on a socket that is closing or
    closed. *)
Lemma step_not_raised (w : World) (id : nat) (ws : WebSocket) :
  sockets w !! id = Some ws ->
  readyState ws = CLOSING \/ readyState ws = CLOSED ->
  step w (WsOpen id) = None
  /\ (forall parsed, step w (WsMessage id parsed) = None).
Proof.
  intros H Hr. unfold step, readyStateOf. rewrite H. simpl.
  destruct Hr as [-> | ->]; repeat split.
Qed.

(** The handler of a message touches no socket but its own, and that one
    only by closing it. *)
Lemma onmessage_sockets (w : World) (id : nat) (ws : WebSocket)
    (parsed : option jsval) :
  sockets w !! id = Some ws ->
  sockets (onmessage id parsed w) = sockets w
  \/ sockets (onmessage id parsed w) = <[id := close ws]> (sockets w).
Proof.
  intros H. unfold onmessage.
  destruct parsed as [data|]; [|now left].
  destruct (JS.Get data (js "type")) as [type|]; [|now left].
  destruct (JS.strictEqStr type (js "log")); [now left|].
  destruct (JS.strictEqStr type (js "error")).
  { destruct (JS.concat _ _); [|now left].
    right. unfold onSocket. simpl. rewrite H. reflexivity. }
  destruct (JS.strictEqStr type (js "complete")); [|now left].
  destruct (JS.concat _ _); [|now left].
  destruct (JS.ToString _); [|now left].
  right. unfold onSocket. simpl. rewrite H. reflexivity.
Qed.

(** Every event keeps the sockets well formed. *)
Lemma step_wellFormed (w w' : World) (e : event) :
  Forall Session.wellFormed (sockets w) ->
  step w e = Some w' ->
  Forall Session.wellFormed (sockets w').
Proof.
  intros Inv Hstep.
  destruct e as [name value|name value|bio|layer| | |id|id parsed|id|id];
    simpl in Hstep.
  - injection Hstep as <-.
    destruct (Sidebar.handleBoundsChange _ _ _); exact Inv.
  - injection Hstep as <-. exact Inv.
  - injection Hstep as <-. exact Inv.
  - injection Hstep as <-. exact Inv.
  - injection Hstep as <-. unfold handleSubmit.
    destruct (negb _); simpl; [exact Inv|].
    apply Forall_app. split; [exact Inv|].
    constructor; [|constructor]. unfold Session.wellFormed. simpl. now split.
  - injection Hstep as <-. exact Inv.
  - destruct (readyStateOf id w) as [r|] eqn:Hr; [|discriminate].
    apply readyStateOf_Some in Hr as (ws & Hws & Hrs).
    destruct r; try discriminate.
    assert (Hws' := Forall_lookup_1 _ _ _ _ Inv Hws).
    assert (Hopen := step_WsOpen w id ws Hws Hrs).
    unfold step, readyStateOf in Hopen. rewrite Hws in Hopen.
    simpl in Hopen. rewrite Hrs in Hopen.
    rewrite Hopen in Hstep. injection Hstep as <-.
    simpl. apply Forall_insert; [exact Inv|].
    unfold Session.wellFormed in *. rewrite Hrs in Hws'. simpl.
    destruct Hws' as [-> ->]. now split.
  - destruct (readyStateOf id w) as [r|] eqn:Hr; [|discriminate].
    apply readyStateOf_Some in Hr as (ws & Hws & Hrs).
    destruct r; try discriminate. injection Hstep as <-.
    assert (Hws' := Forall_lookup_1 _ _ _ _ Inv Hws).
    destruct (onmessage_sockets w id ws parsed Hws) as [-> | ->]; [exact Inv|].
    apply Forall_insert; [exact Inv|].
    unfold Session.wellFormed in *. rewrite Hrs in Hws'. simpl. rewrite Hrs.
    destruct Hws' as [-> ->]. now split.
  - destruct (readyStateOf id w) as [r|] eqn:Hr; [|discriminate].
    apply readyStateOf_Some in Hr as (ws & Hws & Hrs).
    assert (Hws' := Forall_lookup_1 _ _ _ _ Inv Hws).
    unfold Session.wellFormed in Hws'. rewrite Hrs in Hws'.
    destruct r; try discriminate; injection Hstep as <-; simpl;
      unfold onSocket; rewrite Hws; simpl;
      (apply Forall_insert; [exact Inv|]);
      unfold Session.wellFormed; simpl;
      destruct Hws' as [-> ->]; split; auto; lia.
  - destruct (readyStateOf id w) as [r|] eqn:Hr; [|discriminate].
    apply readyStateOf_Some in Hr as (ws & Hws & Hrs).
    assert (Hws' := Forall_lookup_1 _ _ _ _ Inv Hws).
    unfold Session.wellFormed in Hws'. rewrite Hrs in Hws'.
    destruct r; try discriminate; injection Hstep as <-;
      unfold onSocket; rewrite Hws; simpl;
      (apply Forall_insert; [exact Inv|]);
      unfold Session.wellFormed; simpl;
      destruct Hws' as [-> ->]; split; auto; lia.
Qed.

Lemma run_wellFormed (es : list event) (w w' : World) :
  Forall Session.wellFormed (sockets w) ->
  run w es = Some w' ->
  Forall Session.wellFormed (sockets w').
Proof.
  revert w. induction es as [|e es IH]; intros w Inv Hrun; simpl in Hrun.
  - now injection Hrun as <-.
  - destruct (step w e) as [w1|] eqn:Hstep; [|discriminate].
    eapply IH; [|exact Hrun]. eapply step_wellFormed; eauto.
Qed.

(** In every state the page can reach, the sockets are well formed. *)
Lemma reachable_wellFormed (es : list event) (w : World) (id : nat)
    (ws : WebSocket) :
  run initial es = Some w ->
  sockets w !! id = Some ws ->
  Session.wellFormed ws.
Proof.
  intros Hrun Hws.
  eapply Forall_lookup_1; [|exact Hws].
  eapply run_wellFormed; [|exact Hrun]. constructor.
Qed.

End SocketEvents.

(** ** App: the inbound events *)

Section Inbound.

Import App.

(** A [log] event appends its message. *)
Lemma onmessage_log (w : World) (id : nat) (o : obj) :
  JS.lookup (js "type") o = VStr (js "log") ->
  onmessage id (Some (VObj o)) w
  = setLogs (fun prev => prev ++ [JS.lookup (js "message") o]) w.
Proof.
  intros Ht. cbv [onmessage JS.Get JS.optGet]. rewrite Ht.
  change (JS.strictEqStr (VStr (js "log")) (js "log")) with true.
  reflexivity.
Qed.

(** An [error] event whose message converts to [text] shows it, clears
    [loading] and closes the socket. *)
Lemma onmessage_error (w : World) (id : nat) (o : obj) (text : Str.t) :
  JS.lookup (js "type") o = VStr (js "error") ->
  JS.ToString (JS.lookup (js "message") o) = Some text ->
  onmessage id (Some (VObj o)) w
  = onSocket id close (setLoading false (alert (js "Error: " ++ text) w)).
Proof.
  intros Ht Hm. cbv [onmessage JS.Get JS.optGet JS.concat]. rewrite Ht.
  change (JS.strictEqStr (VStr (js "error")) (js "log")) with false.
  change (JS.strictEqStr (VStr (js "error")) (js "error")) with true.
  cbv iota. rewrite Hm. reflexivity.
Qed.

(** A [complete] event whose payload converts to [text] and whose file name
    converts to [name] starts the download, shows the preview, clears
    [loading] and closes the socket. *)
Lemma onmessage_complete (w : World) (id : nat) (o : obj) (text name : Str.t) :
  JS.lookup (js "type") o = VStr (js "complete") ->
  JS.ToString (JS.lookup (js "csv") o) = Some text ->
  JS.ToString (JS.lookup (js "filename") o) = Some name ->
  onmessage id (Some (VObj o)) w
  = onSocket id close
      (setLoading false
         (setPreviewData (JS.lookup (js "csv") o)
            (click {| href := newBlob [BOM ++ text] csvType; download := name |}
               w))).
Proof.
  intros Ht Hc Hf. cbv [onmessage JS.Get JS.optGet JS.concat]. rewrite Ht.
  change (JS.strictEqStr (VStr (js "complete")) (js "log")) with false.
  change (JS.strictEqStr (VStr (js "complete")) (js "error")) with false.
  change (JS.strictEqStr (VStr (js "complete")) (js "complete")) with true.
  cbv iota. rewrite Hc, Hf. reflexivity.
Qed.

(** Closing an open socket of a world, whatever the world. *)
Lemma close_socket_effect (w : World) (id : nat) (ws : WebSocket) :
  sockets w !! id = Some ws ->
  readyState ws = OPEN ->
  readyStateOf id (onSocket id close w) = Some CLOSING
  /\ closeCalls <$> sockets (onSocket id close w) !! id
     = Some (S (closeCalls ws))
  /\ totalCloseCalls (onSocket id close w) = S (totalCloseCalls w)
  /\ length (sockets (onSocket id close w)) = length (sockets w)
  /\ S (liveSockets (onSocket id close w)) = liveSockets w.
Proof.
  intros H Hr.
  assert (Hlt : (id < length (sockets w))%nat) by now apply lookup_lt_Some in H.
  rewrite (readyStateOf_onSocket _ _ _ _ H).
  unfold totalCloseCalls, liveSockets.
  rewrite (onSocket_sockets _ _ _ _ H).
  rewrite list_lookup_insert_eq by exact Hlt.
  repeat split.
  - simpl. now rewrite Hr.
  - pose proof (closeCalls_insert (sockets w) id ws (close ws) H) as E.
    simpl in E. lia.
  - apply length_insert.
  - apply (liveSockets_insert_dead _ _ ws); [exact H| |];
      unfold isLive; simpl; now rewrite Hr.
Qed.

(** C6.  An [error] event on an open session, in whatever state the page is
    (loading or not), shows the message of the service, unchanged, after the
    prefix ["Error: "]; it leaves [loading] cleared; it calls [close()]
    once on the session's socket, one more call on that socket and one more
    in all, which in a state the page can reach is the only call that socket
    ever gets; it opens no socket, the session is live no more, and the
    browser raises no open and no message on it again. *)
Theorem service_error_ends_session (w : World) (id : nat) (ws : WebSocket)
    (o : obj) (m : Str.t) :
  sockets w !! id = Some ws ->
  readyState ws = OPEN ->
  JS.lookup (js "type") o = VStr (js "error") ->
  JS.lookup (js "message") o = VStr m ->
  exists w',
    step w (WsMessage id (Some (VObj o))) = Some w'
    /\ alerts w' = alerts w ++ [js "Error: " ++ m]
    /\ loading w' = false
    /\ readyStateOf id w' = Some CLOSING
    /\ closeCalls <$> sockets w' !! id = Some (S (closeCalls ws))
    /\ totalCloseCalls w' = S (totalCloseCalls w)
    /\ length (sockets w') = length (sockets w)
    /\ S (liveSockets w') = liveSockets w
    /\ step w' (WsOpen id) = None
    /\ (forall parsed, step w' (WsMessage id parsed) = None)
    /\ (forall es, run initial es = Some w ->
          closeCalls <$> sockets w' !! id = Some 1%nat)
    /\ logs w' = logs w
    /\ previewData w' = previewData w
    /\ downloads w' = downloads w.
Proof.
  intros Hws Hrs Ht Hm.
  eexists. split; [apply (step_WsMessage w id ws _ Hws Hrs)|].
  rewrite (onmessage_error w id o m Ht) by (rewrite Hm; reflexivity).
  set (w2 := setLoading false (alert (js "Error: " ++ m) w)).
  assert (Hws2 : sockets w2 !! id = Some ws) by exact Hws.
  destruct (close_socket_effect w2 id ws Hws2 Hrs)
    as (Hc1 & Hc2 & Hc3 & Hc4 & Hc5).
  destruct (onSocket_state id close w2)
    as (_ & _ & Hl & Hp & Hg & Ha & Hd & _).
  split; [exact Ha|]. split; [exact Hl|].
  split; [exact Hc1|]. split; [exact Hc2|]. split; [exact Hc3|].
  split; [exact Hc4|]. split; [exact Hc5|].
  assert (Hnot : step (onSocket id close w2) (WsOpen id) = None
                 /\ (forall parsed,
                       step (onSocket id close w2) (WsMessage id parsed) = None)).
  { pose proof Hc1 as Hc1'.
    apply readyStateOf_Some in Hc1' as (ws' & Hws' & Hrs').
    apply (step_not_raised _ id ws' Hws'). now left. }
  split; [exact (proj1 Hnot)|]. split; [exact (proj2 Hnot)|].
  split; [|split; [exact Hg | split; [exact Hp | exact Hd]]].
  intros es Hrun.
  pose proof (reachable_wellFormed es w id ws Hrun Hws) as Hwf.
  unfold Session.wellFormed in Hwf. rewrite Hrs in Hwf.
  destruct Hwf as [_ Hz]. now rewrite Hc2, Hz.
Qed.

(** A running session, loading, that has received one progress event, then
    receives the service's error "index unavailable". *)
Lemma service_error_ends_session_witness :
  exists w w',
    run initial [ RectangleDrawn Session.arabianSea; Submit; WsOpen 0;
                  WsMessage 0 (Some (Session.logEvent (VStr (js "searching")))) ]
      = Some w
    /\ loading w = true
    /\ step w (WsMessage 0 (Some (Session.errorEvent
                                    (VStr (js "index unavailable"))))) = Some w'
    /\ alerts w' = [js "Error: index unavailable"]
    /\ loading w' = false
    /\ closeCalls <$> sockets w' !! 0%nat = Some 1%nat
    /\ totalCloseCalls w' = 1%nat.
Proof.
  set (es := [ RectangleDrawn Session.arabianSea; Submit; WsOpen 0;
               WsMessage 0 (Some (Session.logEvent (VStr (js "searching")))) ]).
  set (w := default initial (run initial es)).
  assert (Hrun : run initial es = Some w) by (vm_compute; reflexivity).
  destruct (sockets w !! 0%nat) as [ws|] eqn:Hws;
    [|vm_compute in Hws; discriminate].
  assert (Hrs : readyState ws = OPEN)
    by (vm_compute in Hws; injection Hws as <-; reflexivity).
  destruct (service_error_ends_session w 0%nat ws
              [ (js "type", VStr (js "error"));
                (js "message", VStr (js "index unavailable")) ]
              (js "index unavailable") Hws Hrs eq_refl eq_refl)
    as (w' & Hs & Ha & Hl & _ & _ & Hc & _ & _ & _ & _ & Hone & _).
  exists w, w'. split; [exact Hrun|]. split; [vm_compute; reflexivity|].
  split; [exact Hs|]. split; [exact Ha|]. split; [exact Hl|].
  split; [exact (Hone es Hrun) | exact Hc].
Defined.

(** C7 as amended.  An error event of the transport, on a session that is
    connecting or open, writes the error to the console, clears [loading]
    and shows "Connection failed."; the socket is closed, the handler calls
    no [close()] itself and opens no socket. *)
Theorem transport_error_ends_session (w : World) (id : nat) (ws : WebSocket) :
  sockets w !! id = Some ws ->
  readyState ws = CONNECTING \/ readyState ws = OPEN ->
  exists w',
    step w (WsError id) = Some w'
    /\ loading w' = false
    /\ alerts w' = alerts w ++ [js "Connection failed."]
    /\ consoleErrors w' = S (consoleErrors w)
    /\ readyStateOf id w' = Some CLOSED
    /\ length (sockets w') = length (sockets w)
    /\ totalCloseCalls w' = totalCloseCalls w
    /\ previewData w' = previewData w
    /\ logs w' = logs w.
Proof.
  intros Hws Hrs. eexists. split; [apply (step_WsError w id ws Hws Hrs)|].
  assert (Hlt : (id < length (sockets w))%nat) by now apply lookup_lt_Some in Hws.
  unfold readyStateOf, totalCloseCalls. simpl.
  rewrite list_lookup_insert_eq by exact Hlt.
  repeat split.
  - apply length_insert.
  - pose proof (closeCalls_insert (sockets w) id ws (withReadyState CLOSED ws) Hws) as E.
    simpl in E. lia.
Qed.

(** The connection is refused while the first session is connecting. *)
Lemma transport_error_ends_session_witness :
  exists w w',
    run initial [ RectangleDrawn Session.arabianSea; Submit ] = Some w
    /\ loading w = true
    /\ step w (WsError 0) = Some w'
    /\ loading w' = false
    /\ alerts w' = [js "Connection failed."].
Proof.
  eexists.
  destruct (transport_error_ends_session
              (handleSubmit (handleBoundsChange
                               (MapComponent.published Session.arabianSea) initial))
              0%nat
              (newWebSocket endpoint
                 (Some (MapComponent.published Session.arabianSea)) initialParams)
              eq_refl (or_introl eq_refl))
    as (w' & Hs & Hl & Ha & _).
  exists w'. split; [reflexivity|]. split; [reflexivity|].
  split; [exact Hs|]. split; [exact Hl|]. exact Ha.
Defined.

(** C7 as stated fails: when the channel of a running session closes with
    no error event and no terminal message, no code of the page runs;
    [loading] stays set and nothing is shown. *)
Lemma silent_close_leaves_loading :
  exists w,
    run initial [ RectangleDrawn Session.arabianSea; Submit; WsOpen 0;
                  WsClose 0 ] = Some w
    /\ readyStateOf 0 w = Some CLOSED
    /\ loading w = true
    /\ alerts w = []
    /\ liveSockets w = 0%nat.
Proof. eexists. vm_compute. repeat split. Qed.

End Inbound.

(** ** App: a whole session *)

Section Sessions.

Import App.

Lemma run_app (es1 es2 : list event) (w : World) :
  run w (es1 ++ es2) = run w es1 ≫= fun w1 => run w1 es2.
Proof.
  revert w. induction es1 as [|e es1 IH]; intros w; simpl; [reflexivity|].
  destruct (step w e); simpl; [apply IH | reflexivity].
Qed.

(** Progress events on an open session append their messages, in the order
    of arrival and as they are, and change nothing else. *)
Lemma run_progress (ms : list jsval) (w : World) (id : nat) (ws : WebSocket) :
  sockets w !! id = Some ws ->
  readyState ws = OPEN ->
  run w (Session.progress id ms) = Some (setLogs (fun prev => prev ++ ms) w).
Proof.
  revert w. induction ms as [|m ms IH]; intros w Hws Hrs.
  - simpl. destruct w. unfold setLogs. simpl. now rewrite app_nil_r.
  - unfold Session.progress. cbn [List.map run].
    fold (Session.progress id ms).
    rewrite (step_WsMessage w id ws (Some (Session.logEvent m)) Hws Hrs).
    unfold Session.logEvent.
    rewrite (onmessage_log w id
               [(js "type", VStr (js "log")); (js "message", m)] eq_refl).
    change (JS.lookup (js "message")
              [(js "type", VStr (js "log")); (js "message", m)]) with m.
    cbv beta iota.
    rewrite (IH (setLogs (fun prev => prev ++ [m]) w) Hws Hrs).
    unfold setLogs. simpl. now rewrite <- app_assoc.
Qed.

(** C3 as amended.  The submit sets [loading] and resets the logs to the one
    line "Initializing connection..."; the opening of the channel changes
    neither.  Each progress event then appends its message after what is
    there, in the order of arrival, nothing dropped, merged or cut; and the
    [complete] event leaves the logs as they are, clears [loading], hands the
    payload to the preview and closes the socket.  So a session that
    receives [n] progress events ends with [n + 1] log lines: the first line
    and the [n] messages in order. *)
Theorem session_logs_in_arrival_order (w : World) (o : obj) (ms : list jsval)
    (csv filename : Str.t) :
  bounds w = Some o ->
  let id := length (sockets w) in
  exists w1 w2 w3,
    run w [Submit; WsOpen id] = Some w1
    /\ loading w1 = true
    /\ logs w1 = [VStr (js "Initializing connection...")]
    /\ readyStateOf id w1 = Some OPEN
    /\ run w1 (Session.progress id ms) = Some w2
    /\ logs w2 = VStr (js "Initializing connection...") :: ms
    /\ loading w2 = true
    /\ step w2 (WsMessage id (Some (Session.completeEvent
                                      (VStr csv) (VStr filename)))) = Some w3
    /\ logs w3 = VStr (js "Initializing connection...") :: ms
    /\ length (logs w3) = S (length ms)
    /\ loading w3 = false
    /\ previewData w3 = VStr csv
    /\ readyStateOf id w3 = Some CLOSING.
Proof.
  intros Hb id.
  destruct (submit_with_bounds w o Hb) as (Hs & Hl & _ & Hlogs & _).
  set (ws0 := newWebSocket endpoint (Some o) (params w)) in *.
  assert (H0 : sockets (handleSubmit w) !! id = Some ws0).
  { rewrite Hs. subst id. rewrite lookup_app_r by lia.
    now rewrite Nat.sub_diag. }
  set (ws1 := send (request (closureBounds ws0) (closureParams ws0))
                (withReadyState OPEN ws0)).
  set (w1 := setSockets (<[id := ws1]> (sockets (handleSubmit w))) (handleSubmit w)).
  assert (Hlt : (id < length (sockets (handleSubmit w)))%nat)
    by now apply lookup_lt_Some in H0.
  assert (H1 : sockets w1 !! id = Some ws1)
    by (simpl; now apply list_lookup_insert_eq).
  exists w1. eexists. eexists.
  split.
  { cbn [run]. change (step w Submit) with (Some (handleSubmit w)).
    cbv iota. now rewrite (step_WsOpen (handleSubmit w) id ws0 H0 eq_refl). }
  split; [exact Hl|]. split; [exact Hlogs|].
  split; [unfold readyStateOf; now rewrite H1|].
  split; [apply (run_progress ms w1 id ws1 H1 eq_refl)|].
  split; [simpl; now rewrite Hlogs|].
  split; [exact Hl|].
  set (w2 := setLogs (fun prev => prev ++ ms) w1).
  assert (H2 : sockets w2 !! id = Some ws1) by exact H1.
  split; [apply (step_WsMessage w2 id ws1 _ H2 eq_refl)|].
  fold w2. unfold Session.completeEvent.
  rewrite (onmessage_complete w2 id
             [ (js "type", VStr (js "complete")); (js "csv", VStr csv);
               (js "filename", VStr filename) ]
             csv filename eq_refl eq_refl eq_refl).
  change (JS.lookup (js "csv")
            [ (js "type", VStr (js "complete")); (js "csv", VStr csv);
              (js "filename", VStr filename) ]) with (VStr csv).
  match goal with |- context [onSocket id close ?x] => set (w3 := x) end.
  assert (H3 : sockets w3 !! id = Some ws1) by exact H1.
  destruct (onSocket_state id close w3) as (_ & _ & Hl3 & Hp3 & Hg3 & _).
  rewrite Hl3, Hp3, Hg3, (readyStateOf_onSocket _ _ _ _ H3).
  simpl. rewrite Hlogs. simpl. repeat split.
Qed.

(** Three progress events and the completion, after a rectangle is drawn. *)
Lemma session_logs_in_arrival_order_witness :
  let w0 := handleBoundsChange (MapComponent.published Session.arabianSea)
              initial in
  let ms := [ VStr (js "index"); VStr (js "download"); VStr (js "extract") ] in
  bounds w0 = Some (MapComponent.published Session.arabianSea)
  /\ exists w1 w2 w3,
       run w0 [Submit; WsOpen 0] = Some w1
       /\ run w1 (Session.progress 0 ms) = Some w2
       /\ step w2 (WsMessage 0 (Some (Session.completeEvent
                                        (VStr (js "A,B"))
                                        (VStr (js "argo.csv"))))) = Some w3
       /\ logs w3 = VStr (js "Initializing connection...") :: ms
       /\ loading w3 = false.
Proof.
  intros w0 ms. split; [reflexivity|].
  destruct (session_logs_in_arrival_order w0
              (MapComponent.published Session.arabianSea) ms
              (js "A,B") (js "argo.csv") eq_refl)
    as (w1 & w2 & w3 & H1 & _ & _ & _ & H2 & _ & _ & H3 & Hlogs & _ & Hl & _).
  exists w1, w2, w3.
  split; [exact H1|]. split; [exact H2|]. split; [exact H3|].
  split; [exact Hlogs | exact Hl].
Defined.

(** C3 as stated fails: the session that receives three progress events and
    the completion ends with four log lines, not three, and the logs are not
    empty when the channel opens. *)
Lemma session_logs_start_with_a_line :
  exists w1 w,
    run initial [ RectangleDrawn Session.arabianSea; Submit; WsOpen 0 ]
      = Some w1
    /\ logs w1 = [VStr (js "Initializing connection...")]
    /\ run w1 (Session.progress 0 [ VStr (js "index"); VStr (js "download");
                                    VStr (js "extract") ]
               ++ [ WsMessage 0 (Some (Session.completeEvent
                                         (VStr (js "A,B"))
                                         (VStr (js "argo.csv")))) ])
       = Some w
    /\ length (logs w) = 4%nat
    /\ loading w = false
    /\ previewData w = VStr (js "A,B").
Proof. eexists. eexists. vm_compute. repeat split. Qed.

End Sessions.

(** ** App: the outbound request *)

Section Request.

Import App.



(** The request is an object of two properties, [bounds] and [params]. *)
Lemma request_shape (b : option obj) (p : obj) :
  request b p
  = JObj [ (js "bounds", match b with
                         | Some o => JObj (Session.written o)
                         | None => JNull
                         end);
           (js "params", JObj (Session.written p)) ].
Proof. destruct b; reflexivity. Qed.





(** A property of the parameters that the edits of some class of events
    keep is kept, by those events, for the state and for every socket. *)
Section ParamsInvariant.

Variable P : obj -> Prop.
Variable allowed : event -> bool.

Hypothesis P_edit :
  forall name value p,
    allowed (FieldParam name value) = true ->
    P p -> P (Sidebar.handleChange p name value).

Hypothesis P_type :
  forall bio p,
    allowed (TypeButton bio) = true ->
    P p -> P (Sidebar.handleTypeChange p (js (if bio then "bio" else "core"))).




End ParamsInvariant.



(** A property that has a value is written under its name. *)
Lemma written_lookup (k : Str.t) (o : obj) (j : json) :
  JS.stringify (JS.lookup k o) = Some j ->
  In (k, j) (Session.written o).
Proof.
  unfold Session.written. simpl.
  induction o as [|[k' v'] r IH]; simpl; [discriminate|].
  destruct (Str.eqb k' k) eqn:E.
  - apply str_eqb_eq in E. subst k'. intros ->. now left.
  - intros H. specialize (IH H).
    destruct (JS.stringify v'); [now right | exact IH].
Qed.










End Request.

(** ** Sidebar: editing a boundary field *)

Section FieldEdits.

Import App.

(** The handler on any value.  The empty string stores the empty string in
    that field, the mark of an unset field, and not 0; a text that does not
    parse as a float publishes nothing; a text that parses stores the parsed
    Number.  Whenever something is stored, the other fields are what they
    were and the new object is the [bounds] of the state. *)
Lemma field_edit_stores_or_ignores (w : World) (name value : Str.t) :
  exists w',
    step w (FieldBounds name value) = Some w'
    /\ (value = [] ->
        exists o,
          w' = setBounds (Some o) w
          /\ JS.lookup name o = VStr []
          /\ JS.lookup name o <> VNum 0%float
          /\ forall k, k <> name ->
               JS.lookup k o = JS.lookup k (JS.spread (bounds w)))
    /\ (value <> [] -> Num.isNaN (Num.parseFloat value) = true -> w' = w)
    /\ (value <> [] -> Num.isNaN (Num.parseFloat value) = false ->
        exists o,
          w' = setBounds (Some o) w
          /\ JS.lookup name o = VNum (Num.parseFloat value)
          /\ forall k, k <> name ->
               JS.lookup k o = JS.lookup k (JS.spread (bounds w))).
Proof.
  eexists. split; [reflexivity|].
  unfold Sidebar.handleBoundsChange.
  destruct (Str.eqb value []) eqn:E.
  - apply str_eqb_eq in E. repeat split; try congruence.
    intros _. eexists. split; [reflexivity|].
    rewrite lookup_set_eq. repeat split; try discriminate.
    intros k Hk. now apply lookup_set_ne.
  - apply str_eqb_neq in E. split; [congruence|].
    destruct (Num.isNaN (Num.parseFloat value)); simpl.
    + split; [reflexivity | discriminate].
    + split; [discriminate|]. intros _ _. eexists. split; [reflexivity|].
      rewrite lookup_set_eq. split; [reflexivity|].
      intros k Hk. now apply lookup_set_ne.
Qed.


End FieldEdits.

(** ** DataPreview *)

Section Preview.

Lemma splitAux_single (sep : N) (l : Str.t) :
  existsb (N.eqb sep) l = false -> Str.splitAux sep l = (l, []).
Proof.
  induction l as [|c r IH]; simpl; [reflexivity|].
  intros H. apply orb_false_iff in H as [Hc Hr].
  rewrite (IH Hr). rewrite N.eqb_sym, Hc. reflexivity.
Qed.

Lemma splitAux_line (sep : N) (l rest : Str.t) :
  existsb (N.eqb sep) l = false ->
  Str.splitAux sep (l ++ sep :: rest) = (l, Str.split sep rest).
Proof.
  induction l as [|c r IH]; simpl.
  - intros _. unfold Str.split. destruct (Str.splitAux sep rest).
    now rewrite N.eqb_refl.
  - intros H. apply orb_false_iff in H as [Hc Hr].
    rewrite (IH Hr). rewrite N.eqb_sym, Hc. reflexivity.
Qed.

(** Splitting what was joined gives the lines back. *)
Lemma split_join (sep : N) (l : Str.t) (ls : list Str.t) :
  forallb (fun l => negb (existsb (N.eqb sep) l)) (l :: ls) = true ->
  Str.split sep (Str.join [sep] (l :: ls)) = l :: ls.
Proof.
  revert l. induction ls as [|l' ls IH]; intros l H; simpl in H.
  - apply andb_true_iff in H as [H _]. apply negb_true_iff in H.
    unfold Str.split. simpl. now rewrite (splitAux_single sep l H).
  - apply andb_true_iff in H as [H Hr]. apply negb_true_iff in H.
    change (Str.join [sep] (l :: l' :: ls))
      with (l ++ sep :: Str.join [sep] (l' :: ls)).
    unfold Str.split at 1. rewrite (splitAux_line sep l _ H).
    now rewrite (IH l' Hr).
Qed.

(** The component never throws on a string. *)
Lemma render_string_no_error (s : Str.t) :
  DataPreview.render (VStr s) <> DataPreview.TypeError.
Proof.
  unfold DataPreview.render. destruct s as [|c r]; simpl; [discriminate|].
  unfold Str.split. destruct (Str.splitAux 10 _). discriminate.
Qed.

(** Joining what was split gives the text back, and no piece holds the
    separator. *)
Lemma join_split (sep : N) (s : Str.t) :
  Str.join [sep] (Str.split sep s) = s
  /\ forallb (fun l => negb (existsb (N.eqb sep) l)) (Str.split sep s) = true.
Proof.
  unfold Str.split. induction s as [|c r [IHj IHf]]; [now split|].
  simpl. destruct (Str.splitAux sep r) as [p ps].
  destruct (N.eqb c sep) eqn:E.
  - apply N.eqb_eq in E. subst c. split.
    + change (Str.join [sep] ([] :: p :: ps))
        with (sep :: Str.join [sep] (p :: ps)).
      now rewrite IHj.
    + exact IHf.
  - split.
    + destruct ps as [|q qs]; simpl in *; now rewrite IHj.
    + simpl in *. rewrite N.eqb_sym, E. exact IHf.
Qed.

(** The table of a text whose trimmed form is the lines [h], [rows]. *)
Lemma render_lines (s h : Str.t) (rows : list Str.t) :
  s <> [] ->
  Str.trim s = Str.join [10%N] (h :: rows) ->
  Session.singleLines (h :: rows) = true ->
  DataPreview.render (VStr s)
  = DataPreview.Table
      {| DataPreview.headers := Str.split 44 h;
         DataPreview.dataRows := List.map (Str.split 44) (firstn 10 rows) |}.
Proof.
  intros Hs Htrim Hlines.
  unfold DataPreview.render. destruct s as [|c r]; [contradiction|].
  cbn [JS.ToBoolean negb]. rewrite Htrim.
  rewrite (split_join 10 h rows Hlines).
  reflexivity.
Qed.

(** C8 as amended.  Every text that is not empty is, once the white space
    around it is trimmed, a header line and further lines joined by line
    feeds, in one way only.  The component renders the header line split on
    commas as the header row and the lines after it, ten at most and in the
    order of the text, each split on commas, as the data rows; fewer lines
    give fewer rows.  No string makes the component throw, and for the
    empty string it renders nothing at all. *)
Theorem preview_of_lines (s : Str.t) :
  s <> [] ->
  exists (h : Str.t) (rows : list Str.t),
    Str.trim s = Str.join [10%N] (h :: rows)
    /\ Session.singleLines (h :: rows) = true
    /\ (forall h' rows',
          Str.trim s = Str.join [10%N] (h' :: rows') ->
          Session.singleLines (h' :: rows') = true ->
          h' = h /\ rows' = rows)
    /\ DataPreview.render (VStr s)
       = DataPreview.Table
           {| DataPreview.headers := Str.split 44 h;
              DataPreview.dataRows :=
                List.map (Str.split 44) (firstn 10 rows) |}
    /\ length (List.map (Str.split 44) (firstn 10 rows))
       = Nat.min 10 (length rows)
    /\ (forall t, DataPreview.render (VStr t) <> DataPreview.TypeError)
    /\ DataPreview.render (VStr []) = DataPreview.Nothing.
Proof.
  intros Hs.
  destruct (join_split 10 (Str.trim s)) as [Hj Hf].
  destruct (Str.split 10 (Str.trim s)) as [|h rows] eqn:E.
  { unfold Str.split in E. destruct (Str.splitAux 10 _). discriminate. }
  exists h, rows.
  split; [now rewrite Hj|]. split; [exact Hf|].
  split; [|split; [|split; [|split]]].
  - intros h' rows' Hj' Hf'.
    pose proof (split_join 10 h' rows' Hf') as E'.
    rewrite <- Hj', E in E'. now injection E' as -> ->.
  - apply render_lines; [exact Hs | now rewrite Hj | exact Hf].
  - rewrite length_map. apply length_firstn.
  - apply render_string_no_error.
  - reflexivity.
Qed.

(** The payload of a header and fifteen rows: three columns, and the first
    ten rows in their order. *)
Lemma preview_of_lines_witness :
  Session.samplePayload <> []
  /\ DataPreview.render (VStr Session.samplePayload)
     = DataPreview.Table
         {| DataPreview.headers := [js "A"; js "B"; js "C"];
            DataPreview.dataRows :=
              List.map (fun n => [Str.ofN (N.of_nat n); js "x"; js "y"])
                (seq 1 10) |}.
Proof.
  split; [discriminate|].
  destruct (preview_of_lines Session.samplePayload ltac:(discriminate))
    as (h & rows & _ & _ & Huniq & Hr & _).
  destruct (Huniq Session.sampleHeader Session.sampleRows
              ltac:(vm_compute; reflexivity) ltac:(vm_compute; reflexivity))
    as [<- <-].
  rewrite Hr. vm_compute. reflexivity.
Defined.

(** C8 as stated fails: the empty string gives no table at all, not a table
    of one empty header and no rows; that table is what a text of white
    space only gives. *)
Lemma preview_of_empty_text :
  DataPreview.render (VStr []) = DataPreview.Nothing
  /\ DataPreview.render (VStr [])
     <> DataPreview.Table {| DataPreview.headers := [[]];
                             DataPreview.dataRows := [] |}
  /\ DataPreview.render (VStr (js " "))
     = DataPreview.Table {| DataPreview.headers := [[]];
                            DataPreview.dataRows := [] |}.
Proof. repeat split. discriminate. Qed.

End Preview.

(** ** The download *)

Section Downloads.

Import App.

(** The byte-order mark comes out as the three bytes EF BB BF, before the
    bytes of the text. *)
Lemma utf8_BOM (s : Str.t) :
  Str.utf8 (BOM ++ s) = [239; 187; 191]%N ++ Str.utf8 s.
Proof. reflexivity. Qed.

(** C9 as amended.  On a [complete] event the page starts one download: its
    content is the payload in UTF-8 after the three bytes of the byte-order
    mark, its type is [text/csv;charset=utf-8;], and its file name is the
    [filename] of the event converted to a string, so a [filename] that is a
    string is the file name as it is; the page makes up no name of its own.
    In the request/response variant the download is the body of the response
    as received, and its name is always made from the category and the
    time: [argo_<type>_data_<Date.now()>.csv]. *)
Theorem download_of_result (w : World) (id : nat) (ws : WebSocket) (o : obj)
    (csv name : Str.t) :
  sockets w !! id = Some ws ->
  readyState ws = OPEN ->
  JS.lookup (js "type") o = VStr (js "complete") ->
  JS.lookup (js "csv") o = VStr csv ->
  JS.ToString (JS.lookup (js "filename") o) = Some name ->
  (exists w',
     step w (WsMessage id (Some (VObj o))) = Some w'
     /\ downloads w'
        = downloads w
          ++ [ {| href := {| blobBytes := [239; 187; 191]%N ++ Str.utf8 csv;
                             blobType := js "text/csv;charset=utf-8;" |};
                  download := name |} ]
     /\ (forall f, JS.lookup (js "filename") o = VStr f -> name = f))
  /\ (forall (p : obj) (type : Str.t) (data : Blob) (text : Str.t)
             (now : Num.t),
        JS.lookup (js "type") p = VStr type ->
        downloads (AppHttp.resume p (AppHttp.Fulfilled data text now) w)
        = downloads w
          ++ [ {| href := data;
                  download := js "argo_" ++ type ++ js "_data_"
                              ++ Num.toString now ++ js ".csv" |} ]).
Proof.
  intros Hws Hrs Ht Hc Hf. split.
  - eexists. split; [apply (step_WsMessage w id ws _ Hws Hrs)|].
    rewrite (onmessage_complete w id o csv name Ht)
      by (try rewrite Hc; auto).
    match goal with |- context [onSocket id close ?x] => set (w3 := x) end.
    destruct (onSocket_state id close w3) as (_ & _ & _ & _ & _ & _ & Hd & _).
    rewrite Hd. split.
    + subst w3. simpl. unfold newBlob. simpl.
      rewrite app_nil_r. reflexivity.
    + intros f Hf'. rewrite Hf' in Hf. simpl in Hf. congruence.
  - intros p type data text now Hp. unfold AppHttp.resume, AppHttp.fileName.
    rewrite Hp. reflexivity.
Qed.

(** A session that completes with the payload "A,B" and the file name
    "argo_core.csv". *)
Lemma download_of_result_witness :
  exists w',
    step Session.running
      (WsMessage 0 (Some (Session.completeEvent (VStr (js "A,B"))
                            (VStr (js "argo_core.csv"))))) = Some w'
    /\ downloads w'
       = [ {| href := {| blobBytes := [239; 187; 191; 65; 44; 66]%N;
                         blobType := js "text/csv;charset=utf-8;" |};
              download := js "argo_core.csv" |} ].
Proof.
  destruct (download_of_result Session.running 0%nat _
              [ (js "type", VStr (js "complete")); (js "csv", VStr (js "A,B"));
                (js "filename", VStr (js "argo_core.csv")) ]
              (js "A,B") (js "argo_core.csv")
              eq_refl eq_refl eq_refl eq_refl eq_refl)
    as ((w' & Hs & Hd & _) & _).
  exists w'. split; [exact Hs | exact Hd].
Defined.

(** C9 as stated fails: when the [complete] event carries no [filename],
    the file name of the download is the text "undefined"; it is not made
    from the category and the time. *)
Lemma download_without_filename :
  exists w',
    step Session.running
      (WsMessage 0 (Some (VObj [ (js "type", VStr (js "complete"));
                                 (js "csv", VStr (js "A,B")) ]))) = Some w'
    /\ List.map download (downloads w') = [js "undefined"].
Proof. eexists. vm_compute. split; reflexivity. Qed.

End Downloads.

(** * Further properties of the components *)

(** ** MapComponent and the boundary state *)

Section Overlay.

Import App.

(** X1.  Drawing a rectangle replaces the bounds by its four sides, whatever
    was there; the state then reads back those four Numbers, and the effect
    redraws one rectangle with the same corners when north is above south
    and east beyond west, and clears the feature group when not. *)
Theorem overlay_round_trip (w : World) (b : MapComponent.LatLngBounds)
    (layers : list (list jsval)) :
  exists w',
    step w (RectangleDrawn b) = Some w'
    /\ List.map (JS.optGet (JS.ofBounds (bounds w'))) Page.boundNames
       = [ VNum (MapComponent.getNorth b); VNum (MapComponent.getSouth b);
           VNum (MapComponent.getEast b); VNum (MapComponent.getWest b) ]
    /\ sockets w' = sockets w
    /\ params w' = params w
    /\ MapComponent.effect (bounds w') layers
       = if JS.gt (MapComponent.getNorth b) (MapComponent.getSouth b)
            && JS.gt (MapComponent.getEast b) (MapComponent.getWest b)
         then [ [ VNum (MapComponent.getSouth b); VNum (MapComponent.getWest b);
                  VNum (MapComponent.getNorth b); VNum (MapComponent.getEast b) ] ]
         else [].
Proof.
  eexists. split; [reflexivity|]. repeat split.
Qed.

(** The guard of the effect fails as soon as one of the four fields is not
    a Number. *)
Lemma numeric_needs_all_fields (bounds : option obj) (name : Str.t) :
  In name Page.boundNames ->
  JS.isNumber (JS.optGet (JS.ofBounds bounds) name) = false ->
  MapComponent.numeric bounds = false.
Proof.
  unfold Page.boundNames, MapComponent.numeric. simpl.
  intros [<- | [<- | [<- | [<- | []]]]] H; rewrite H;
    rewrite ?andb_false_r; reflexivity.
Qed.

(** X2.  While one of the four fields is not a Number (the bounds are
    absent, the field is missing, or it was cleared) the effect leaves the
    layers of the map exactly as they are: the rectangle drawn before stays.
    Clearing a field is such a case. *)
Theorem unset_field_keeps_overlay (bounds : option obj) (name : Str.t)
    (layers : list (list jsval)) :
  In name Page.boundNames ->
  (JS.isNumber (JS.optGet (JS.ofBounds bounds) name) = false ->
   MapComponent.effect bounds layers = layers
   /\ MapComponent.valid bounds = false)
  /\ (forall o, Sidebar.handleBoundsChange bounds name [] = Some o ->
        MapComponent.effect (Some o) layers = layers).
Proof.
  intros Hin. split.
  - intros H. unfold MapComponent.effect, MapComponent.valid.
    now rewrite (numeric_needs_all_fields bounds name Hin H).
  - intros o Ho. unfold Sidebar.handleBoundsChange in Ho. simpl in Ho.
    injection Ho as <-. unfold MapComponent.effect.
    rewrite (numeric_needs_all_fields _ name Hin); [reflexivity|].
    unfold JS.optGet, JS.ofBounds, JS.Get. now rewrite lookup_set_eq.
Qed.

(** The south field of a drawn rectangle is cleared: the rectangle stays. *)
Lemma unset_field_keeps_overlay_witness :
  MapComponent.effect
    (Sidebar.handleBoundsChange
       (Some (MapComponent.published Session.arabianSea)) (js "south") [])
    [[VNum 5%float; VNum 55%float; VNum 25%float; VNum 75%float]]
  = [[VNum 5%float; VNum 55%float; VNum 25%float; VNum 75%float]].
Proof.
  apply (proj2 (unset_field_keeps_overlay
                  (Some (MapComponent.published Session.arabianSea))
                  (js "south") _
                  ltac:(unfold Page.boundNames; simpl; tauto))).
  reflexivity.
Defined.

(** X3.  When several layers are edited at once the bounds of the last one
    are what the state holds; with no layer nothing changes; and the edit
    touches nothing but the bounds. *)
Theorem edited_layers_last_wins (w : World)
    (layers : list MapComponent.LatLngBounds) (l : MapComponent.LatLngBounds) :
  bounds (Page.edited (layers ++ [l]) w) = Some (MapComponent.published l)
  /\ Page.edited [] w = w
  /\ params (Page.edited layers w) = params w
  /\ sockets (Page.edited layers w) = sockets w
  /\ loading (Page.edited layers w) = loading w
  /\ logs (Page.edited layers w) = logs w.
Proof.
  unfold Page.edited, MapComponent.onEdited. split.
  - rewrite List.map_app, fold_left_app. reflexivity.
  - split; [reflexivity|].
    revert w. induction layers as [|x r IH]; intros w; simpl;
      [repeat split|].
    destruct (IH (handleBoundsChange (MapComponent.published x) w))
      as (-> & -> & -> & ->).
    repeat split.
Qed.

End Overlay.

(** ** Sidebar: parameters and fields *)

Section SidebarFacts.

Lemma set_set (k : Str.t) (v v' : jsval) (o : obj) :
  JS.set k v' (JS.set k v o) = JS.set k v' o.
Proof.
  induction o as [|[k0 v0] r IH]; simpl.
  - now rewrite str_eqb_refl.
  - destruct (Str.eqb k0 k) eqn:E; simpl; rewrite E; [reflexivity|].
    now rewrite IH.
Qed.

(** X4.  An edit of a parameter stores the text of the input under its
    name, as a string even for the depth inputs, and leaves every other
    parameter as it was; a name the parameters have keeps its place, and of
    two edits of one input the later one is what remains. *)
Theorem param_edit_stores_text (p : obj) (name value value' : Str.t) :
  JS.lookup name (Sidebar.handleChange p name value) = VStr value
  /\ JS.isNumber (JS.lookup name (Sidebar.handleChange p name value)) = false
  /\ (forall k, k <> name ->
        JS.lookup k (Sidebar.handleChange p name value) = JS.lookup k p)
  /\ (JS.hasOwn name p = true ->
        List.map fst (Sidebar.handleChange p name value) = List.map fst p)
  /\ Sidebar.handleChange (Sidebar.handleChange p name value) name value'
     = Sidebar.handleChange p name value'.
Proof.
  unfold Sidebar.handleChange, JS.spread.
  rewrite lookup_set_eq. repeat split.
  - intros k Hk. now apply lookup_set_ne.
  - apply keys_set_present.
  - apply set_set.
Qed.

(** X5.  The type button decides the list of variables shown: "core" gives
    the core list and any other type the BGC list, whatever the other
    parameters hold; and whichever list is shown contains the core
    variables and the two pseudo-entries. *)
Theorem type_button_selects_variables (p : obj) (type : Str.t) :
  Sidebar.currentVars (Sidebar.handleTypeChange p type)
  = (if Str.eqb type (js "core") then Sidebar.coreVars else Sidebar.bioVars)
  /\ (forall k, k <> js "type" ->
        JS.lookup k (Sidebar.handleTypeChange p type) = JS.lookup k p)
  /\ incl Sidebar.coreVars (Sidebar.currentVars p).
Proof.
  unfold Sidebar.currentVars, Sidebar.handleTypeChange, JS.spread.
  rewrite lookup_set_eq. split; [reflexivity|]. split.
  - intros k Hk. now apply lookup_set_ne.
  - destruct (JS.strictEqStr _ _); [apply incl_refl|].
    intros x Hx. vm_compute in Hx. vm_compute.
    repeat (destruct Hx as [<- | Hx]; [tauto|]). contradiction.
Qed.

(** X6.  After an edit of a boundary field that publishes, the input of
    that field shows the empty string when the text was empty and otherwise
    the parsed Number, unless that Number is zero, which shows as the empty
    string; the other inputs show what they showed; and the field never
    holds NaN. *)
Theorem field_edit_then_display (bounds : option obj) (name value : Str.t)
    (o : obj) :
  Sidebar.handleBoundsChange bounds name value = Some o ->
  Sidebar.fieldValue (Some o) name
  = (if Str.eqb value [] then VStr []
     else if is_zero (Num.parseFloat value) then VStr []
          else VNum (Num.parseFloat value))
  /\ (forall k, k <> name ->
        Sidebar.fieldValue (Some o) k = Sidebar.fieldValue bounds k)
  /\ (forall x, JS.lookup name o = VNum x -> is_nan x = false).
Proof.
  unfold Sidebar.handleBoundsChange, Sidebar.fieldValue, JS.optGet, JS.Get,
    JS.ofBounds, Num.isNaN.
  intros H.
  assert (Hother : forall v k, k <> name ->
            JS.lookup k (JS.set name v (JS.spread bounds))
            = match bounds with
              | Some o0 => JS.lookup k o0
              | None => VUndefined
              end).
  { intros v k Hk. rewrite lookup_set_ne by exact Hk. now destruct bounds. }
  destruct (Str.eqb value []).
  - injection H as <-. rewrite lookup_set_eq. split; [reflexivity|]. split.
    + intros k Hk. rewrite (Hother _ k Hk). now destruct bounds.
    + intros x Hx. discriminate.
  - destruct (is_nan (Num.parseFloat value)) eqn:En; simpl in H;
      [discriminate|].
    injection H as <-. rewrite lookup_set_eq. split; [|split].
    + unfold JS.or, JS.ToBoolean. rewrite En, orb_false_r.
      now destruct (is_zero _).
    + intros k Hk. rewrite (Hother _ k Hk). now destruct bounds.
    + intros x Hx. now injection Hx as <-.
Qed.

(** "12.5" typed into the north field of a fresh form. *)
Lemma field_edit_then_display_witness :
  Sidebar.handleBoundsChange None (js "north") (js "12.5")
  = Some [(js "north", VNum 12.5%float)]
  /\ Sidebar.fieldValue (Some [(js "north", VNum 12.5%float)]) (js "north")
     = VNum 12.5%float.
Proof.
  assert (H : Sidebar.handleBoundsChange None (js "north") (js "12.5")
              = Some [(js "north", VNum 12.5%float)])
    by (vm_compute; reflexivity).
  split; [exact H|].
  pose proof (proj1 (field_edit_then_display None (js "north") (js "12.5") _ H))
    as E.
  etransitivity; [exact E | vm_compute; reflexivity].
Defined.

End SidebarFacts.

(** ** App: handlers and sessions, further *)

Section Handlers.

Import App.

(** The four things the handler of a message can do. *)
Lemma onmessage_cases (w : World) (id : nat) (parsed : option jsval) :
  onmessage id parsed w = w
  \/ (exists m, onmessage id parsed w = setLogs (fun prev => prev ++ [m]) w)
  \/ (exists text,
        onmessage id parsed w
        = onSocket id close (setLoading false (alert text w)))
  \/ (exists d v,
        onmessage id parsed w
        = onSocket id close
            (setLoading false (setPreviewData v (click d w)))).
Proof.
  unfold onmessage.
  destruct parsed as [data|]; [|now left].
  destruct (JS.Get data (js "type")) as [type|]; [|now left].
  destruct (JS.strictEqStr type (js "log")); [right; left; eauto|].
  destruct (JS.strictEqStr type (js "error")).
  { destruct (JS.concat _ _); [|now left]. right; right; left. eauto. }
  destruct (JS.strictEqStr type (js "complete")); [|now left].
  destruct (JS.concat _ _); [|now left].
  destruct (JS.ToString _); [|now left].
  right; right; right. eauto.
Qed.

Lemma onSocket_bounds (id : nat) (f : WebSocket -> WebSocket) (w : World) :
  bounds (onSocket id f w) = bounds w.
Proof. exact (proj1 (onSocket_state id f w)). Qed.

Lemma onmessage_bounds (w : World) (id : nat) (parsed : option jsval) :
  bounds (onmessage id parsed w) = bounds w.
Proof.
  destruct (onmessage_cases w id parsed)
    as [-> | [(m & ->) | [(t & ->) | (d & v & ->)]]];
    try reflexivity; now rewrite onSocket_bounds.
Qed.

(** An event keeps the bounds or sets them to an object. *)
Lemma step_bounds (w w' : World) (e : event) :
  step w e = Some w' ->
  bounds w' = bounds w \/ exists o, bounds w' = Some o.
Proof.
  intros Hstep.
  destruct e as [name value|name value|bio|layer| | |id|id parsed|id|id];
    simpl in Hstep.
  - injection Hstep as <-.
    destruct (Sidebar.handleBoundsChange _ _ _); [right; simpl; eauto | now left].
  - injection Hstep as <-. now left.
  - injection Hstep as <-. now left.
  - injection Hstep as <-. right. simpl. eauto.
  - injection Hstep as <-. left. unfold handleSubmit.
    now destruct (negb _).
  - injection Hstep as <-. now left.
  - destruct (readyStateOf id w) as [[]|]; try discriminate.
    injection Hstep as <-. left. unfold onopen.
    now rewrite !onSocket_bounds.
  - destruct (readyStateOf id w) as [[]|]; try discriminate.
    injection Hstep as <-. left. apply onmessage_bounds.
  - destruct (readyStateOf id w) as [[]|]; try discriminate;
      injection Hstep as <-; left; simpl; apply onSocket_bounds.
  - destruct (readyStateOf id w) as [[]|]; try discriminate;
      injection Hstep as <-; left; apply onSocket_bounds.
Qed.

(** An event of the user other than the submit is always taken, and it
    leaves the sockets, the loading flag, the logs, the alerts and the
    downloads as they are. *)
Lemma user_edit_frame (w : World) (e : event) :
  Page.isUserEdit e = true ->
  exists w',
    step w e = Some w'
    /\ sockets w' = sockets w /\ loading w' = loading w /\ logs w' = logs w
    /\ alerts w' = alerts w /\ downloads w' = downloads w.
Proof.
  destruct e; try discriminate; intros _; eexists;
    (split; [reflexivity|]); simpl;
    try (destruct (Sidebar.handleBoundsChange _ _ _)); repeat split.
Qed.

Lemma run_user_edits (es : list event) (w : World) :
  forallb Page.isUserEdit es = true ->
  exists w',
    run w es = Some w'
    /\ sockets w' = sockets w /\ loading w' = loading w /\ logs w' = logs w
    /\ alerts w' = alerts w /\ downloads w' = downloads w.
Proof.
  revert w. induction es as [|e es IH]; intros w H; simpl in H.
  - exists w. repeat split.
  - apply andb_true_iff in H as [He Hes].
    destruct (user_edit_frame w e He) as (w1 & Hs & E1 & E2 & E3 & E4 & E5).
    destruct (IH w1 Hes) as (w' & Hr & F1 & F2 & F3 & F4 & F5).
    exists w'. simpl. rewrite Hs. split; [exact Hr|].
    repeat split; congruence.
Qed.

(** X7.  The request of a session is made of the bounds and the parameters
    of the moment the submit was clicked.  Whatever the user edits between
    the submit and the opening of the channel (fields, parameters, type, a
    new rectangle), those edits are all taken, and the message sent at the
    opening is still the one of the submit. *)
Theorem request_is_fixed_at_submit (w : World) (o : obj) (es : list event) :
  bounds w = Some o ->
  forallb Page.isUserEdit es = true ->
  exists w1 w2,
    run (handleSubmit w) es = Some w1
    /\ step w1 (WsOpen (length (sockets w))) = Some w2
    /\ sent <$> sockets w2 !! length (sockets w)
       = Some [request (Some o) (params w)].
Proof.
  intros Hb Hes.
  destruct (run_user_edits es (handleSubmit w) Hes) as (w1 & Hr & Hs & _).
  destruct (submit_with_bounds w o Hb) as (Hsub & _).
  set (ws0 := newWebSocket endpoint (Some o) (params w)) in *.
  assert (H0 : sockets w1 !! length (sockets w) = Some ws0).
  { rewrite Hs, Hsub, lookup_app_r by lia. now rewrite Nat.sub_diag. }
  exists w1. eexists. split; [exact Hr|].
  split; [apply (step_WsOpen w1 _ ws0 H0 eq_refl)|].
  simpl. rewrite list_lookup_insert_eq by (now apply lookup_lt_Some in H0).
  reflexivity.
Qed.

(** The depth and the type are edited and a new rectangle is drawn while
    the channel is connecting. *)
Lemma request_is_fixed_at_submit_witness :
  let w := handleBoundsChange (MapComponent.published Session.arabianSea)
             initial in
  exists w1 w2,
    run (handleSubmit w)
      [ FieldParam (js "maxDepth") (js "500"); TypeButton true;
        FieldBounds (js "north") (js "30") ] = Some w1
    /\ step w1 (WsOpen 0) = Some w2
    /\ sent <$> sockets w2 !! 0%nat
       = Some [request (Some (MapComponent.published Session.arabianSea))
                 initialParams].
Proof.
  intros w.
  exact (request_is_fixed_at_submit w
           (MapComponent.published Session.arabianSea)
           [ FieldParam (js "maxDepth") (js "500"); TypeButton true;
             FieldBounds (js "north") (js "30") ] eq_refl eq_refl).
Defined.

(** X8.  A message changes nothing at all when its text is not JSON, when
    it is JSON but not an object ([null] included, on which reading [type]
    throws), or when it is an object whose [type] is none of the strings
    "log", "error" and "complete": the logs, the loading flag and the socket
    stay as they are. *)
Theorem unknown_message_ignored (w : World) (id : nat) :
  onmessage id None w = w
  /\ (forall data, (forall o, data <> VObj o) ->
        onmessage id (Some data) w = w)
  /\ (forall o, Page.isKnownType (JS.lookup (js "type") o) = false ->
        onmessage id (Some (VObj o)) w = w).
Proof.
  split; [reflexivity|]. split.
  - intros data Hd. destruct data; try reflexivity. now destruct (Hd props).
  - intros o Hk. unfold Page.isKnownType in Hk.
    apply orb_false_iff in Hk as [Hk Hc].
    apply orb_false_iff in Hk as [Hl He].
    unfold onmessage, JS.Get. now rewrite Hl, He, Hc.
Qed.

Lemma totalCloseCalls_onSocket_same (id : nat) (f : WebSocket -> WebSocket)
    (w : World) :
  (forall ws, closeCalls (f ws) = closeCalls ws) ->
  totalCloseCalls (onSocket id f w) = totalCloseCalls w.
Proof.
  intros Hf. unfold onSocket, totalCloseCalls.
  destruct (sockets w !! id) as [ws|] eqn:E; [|reflexivity]. simpl.
  pose proof (closeCalls_insert (sockets w) id ws (f ws) E) as H.
  rewrite Hf in H. lia.
Qed.

Lemma totalCloseCalls_onSocket_close (id : nat) (w : World) (ws : WebSocket) :
  sockets w !! id = Some ws ->
  totalCloseCalls (onSocket id close w) = S (totalCloseCalls w).
Proof.
  intros E. unfold onSocket, totalCloseCalls. rewrite E. simpl.
  pose proof (closeCalls_insert (sockets w) id ws (close ws) E) as H.
  simpl in H. lia.
Qed.

Lemma onSocket_downloads (id : nat) (f : WebSocket -> WebSocket) (w : World) :
  downloads (onSocket id f w) = downloads w.
Proof.
  destruct (onSocket_state id f w) as (_ & _ & _ & _ & _ & _ & H & _).
  exact H.
Qed.

(** Every event keeps the downloads no more than the calls of [close()]. *)
Lemma step_downloads (w w' : World) (e : event) :
  (length (downloads w) <= totalCloseCalls w)%nat ->
  step w e = Some w' ->
  (length (downloads w') <= totalCloseCalls w')%nat.
Proof.
  intros Inv Hstep.
  destruct (Page.isUserEdit e) eqn:Hu.
  { destruct (user_edit_frame w e Hu) as (w1 & Hs & E1 & _ & _ & _ & E5).
    rewrite Hs in Hstep. injection Hstep as <-.
    unfold totalCloseCalls in *. now rewrite E1, E5. }
  destruct e as [name value|name value|bio|layer| | |id|id parsed|id|id];
    try discriminate; simpl in Hstep.
  - injection Hstep as <-. unfold handleSubmit, totalCloseCalls in *.
    destruct (negb _); simpl; [exact Inv|].
    rewrite List.map_app, list_sum_app. simpl. lia.
  - destruct (readyStateOf id w) as [[]|]; try discriminate.
    injection Hstep as <-. unfold onopen.
    rewrite !onSocket_downloads.
    rewrite !totalCloseCalls_onSocket_same by reflexivity. exact Inv.
  - destruct (readyStateOf id w) as [[]|] eqn:Hr; try discriminate.
    injection Hstep as <-.
    apply readyStateOf_Some in Hr as (ws & Hws & _).
    destruct (onmessage_cases w id parsed)
      as [-> | [(m & ->) | [(t & ->) | (d & v & ->)]]].
    + exact Inv.
    + exact Inv.
    + rewrite onSocket_downloads.
      rewrite (totalCloseCalls_onSocket_close id _ ws) by exact Hws.
      simpl. unfold totalCloseCalls in *. simpl. lia.
    + rewrite onSocket_downloads.
      rewrite (totalCloseCalls_onSocket_close id _ ws) by exact Hws.
      simpl. rewrite length_app. unfold totalCloseCalls in *. simpl. lia.
  - destruct (readyStateOf id w) as [[]|]; try discriminate;
      injection Hstep as <-;
      change (length (downloads (onSocket id (withReadyState CLOSED) w))
              <= totalCloseCalls (onSocket id (withReadyState CLOSED) w))%nat;
      rewrite onSocket_downloads;
      rewrite totalCloseCalls_onSocket_same by reflexivity; exact Inv.
  - destruct (readyStateOf id w) as [[]|]; try discriminate;
      injection Hstep as <-;
      rewrite onSocket_downloads;
      rewrite totalCloseCalls_onSocket_same by reflexivity; exact Inv.
Qed.

Lemma wellFormed_closeCalls (l : list WebSocket) :
  Forall Session.wellFormed l ->
  (list_sum (List.map closeCalls l) <= length l)%nat.
Proof.
  induction 1 as [|ws l Hws _ IH]; simpl; [lia|].
  unfold Session.wellFormed in Hws.
  destruct (readyState ws); destruct Hws as [_ Hc]; lia.
Qed.

(** X10.  In every state the page can reach there are no more downloads than
    calls of [close()], and no more calls of [close()] than sockets: a
    session starts at most one download and is closed by the page at most
    once. *)
Theorem one_download_per_session (es : list event) (w : World) :
  run initial es = Some w ->
  (length (downloads w) <= totalCloseCalls w)%nat
  /\ (totalCloseCalls w <= length (sockets w))%nat.
Proof.
  intros Hrun. split.
  - assert (G : forall es w0 w1,
              (length (downloads w0) <= totalCloseCalls w0)%nat ->
              run w0 es = Some w1 ->
              (length (downloads w1) <= totalCloseCalls w1)%nat).
    { clear. induction es as [|e es IH]; intros w0 w1 Inv Hrun;
        simpl in Hrun.
      - now injection Hrun as <-.
      - destruct (step w0 e) as [w2|] eqn:Hs; [|discriminate].
        eapply IH; [|exact Hrun]. eapply step_downloads; eauto. }
    apply (G es initial w); [simpl; lia | exact Hrun].
  - apply wellFormed_closeCalls.
    eapply run_wellFormed; [|exact Hrun]. constructor.
Qed.

(** Two sessions: the first completes, the second fails. *)
Lemma one_download_per_session_witness :
  exists w,
    run initial
      [ RectangleDrawn Session.arabianSea; Submit; WsOpen 0; Submit; WsOpen 1;
        WsMessage 0 (Some (Session.completeEvent (VStr (js "A,B"))
                             (VStr (js "argo.csv"))));
        WsMessage 1 (Some (Session.errorEvent (VStr (js "busy")))) ] = Some w
    /\ (length (downloads w) <= totalCloseCalls w)%nat
    /\ (totalCloseCalls w <= length (sockets w))%nat.
Proof.
  eexists. split; [vm_compute; reflexivity|].
  apply (one_download_per_session
           [ RectangleDrawn Session.arabianSea; Submit; WsOpen 0; Submit;
             WsOpen 1;
             WsMessage 0 (Some (Session.completeEvent (VStr (js "A,B"))
                                  (VStr (js "argo.csv"))));
             WsMessage 1 (Some (Session.errorEvent (VStr (js "busy")))) ]).
  vm_compute. reflexivity.
Defined.

End Handlers.

(** ** App: what every reachable state keeps *)

Section Reachable.

Import App.

(** An event keeps a page that has no bounds quiet. *)
Lemma step_quiet (w w' : World) (e : event) :
  (bounds w = None -> Page.quiet w) ->
  step w e = Some w' ->
  bounds w' = None -> Page.quiet w'.
Proof.
  intros Hq Hstep Hn.
  destruct (step_bounds w w' e Hstep) as [E | (o & E)]; [|congruence].
  rewrite E in Hn. destruct (Hq Hn) as (Q1 & Q2 & Q3 & Q4 & Q5).
  unfold Page.quiet.
  destruct e as [name value|name value|bio|layer| | |id|id parsed|id|id];
    simpl in Hstep;
    try (unfold readyStateOf in Hstep; rewrite Q1, lookup_nil in Hstep;
         discriminate);
    injection Hstep as <-.
  - destruct (Sidebar.handleBoundsChange _ _ _); simpl; auto.
  - simpl; auto.
  - simpl; auto.
  - simpl; auto.
  - unfold handleSubmit. rewrite Hn. simpl. auto.
  - simpl. auto.
Qed.

(** X9.  No session without bounds: in every state the page can reach in
    which the bounds are still absent, no socket was ever made, nothing is
    loading and nothing was logged, downloaded or previewed.  And bounds
    that are set are never absent again, whatever happens next. *)
Theorem no_session_without_bounds (es : list event) (w : World) :
  run initial es = Some w ->
  (bounds w = None -> Page.quiet w)
  /\ (forall e w', step w e = Some w' -> bounds w <> None -> bounds w' <> None).
Proof.
  intros Hrun. split.
  - assert (G : forall es w0 w1,
              (bounds w0 = None -> Page.quiet w0) ->
              run w0 es = Some w1 ->
              bounds w1 = None -> Page.quiet w1).
    { clear. induction es as [|e es IH]; intros w0 w1 Inv Hrun;
        simpl in Hrun.
      - now injection Hrun as <-.
      - destruct (step w0 e) as [w2|] eqn:Hs; [|discriminate].
        eapply IH; [|exact Hrun]. eapply step_quiet; eauto. }
    apply (G es initial w); [|exact Hrun].
    intros _. unfold Page.quiet. simpl. auto.
  - intros e w' Hstep Hb.
    destruct (step_bounds w w' e Hstep) as [E | (o & E)]; congruence.
Qed.

(** Submits and edits of the parameters before any rectangle is drawn. *)
Lemma no_session_without_bounds_witness :
  exists w,
    run initial [ Submit; FieldParam (js "minDepth") (js "10"); TypeButton true;
                  Submit ] = Some w
    /\ bounds w = None
    /\ sockets w = []
    /\ loading w = false
    /\ length (alerts w) = 2%nat.
Proof.
  eexists. split; [vm_compute; reflexivity|].
  split; [reflexivity|].
  destruct (proj1 (no_session_without_bounds
                     [ Submit; FieldParam (js "minDepth") (js "10");
                       TypeButton true; Submit ] _ eq_refl) eq_refl)
    as (Hs & Hl & _).
  split; [exact Hs|]. split; [exact Hl | reflexivity].
Defined.

(** X11.  A boundary field that was cleared goes to the service as the
    empty string: after the field is cleared, the submit and the opening of
    the channel send a request whose [bounds] object holds the empty string
    under the name of that field. *)
Theorem cleared_field_is_sent_empty (w : World) (name : Str.t) :
  let id := length (sockets w) in
  let o := JS.set name (VStr []) (JS.spread (bounds w)) in
  exists w',
    run w [FieldBounds name []; Submit; WsOpen id] = Some w'
    /\ sent <$> sockets w' !! id
       = Some [ JObj [ (js "bounds", JObj (Session.written o));
                       (js "params", JObj (Session.written (params w))) ] ]
    /\ In (name, JStr []) (Session.written o).
Proof.
  intros id o.
  set (w1 := handleBoundsChange o w).
  destruct (submit_with_bounds w1 o eq_refl) as (Hsub & _).
  set (ws0 := newWebSocket endpoint (Some o) (params w)) in *.
  assert (H0 : sockets (handleSubmit w1) !! id = Some ws0).
  { rewrite Hsub. subst id. simpl. rewrite lookup_app_r by lia.
    now rewrite Nat.sub_diag. }
  eexists. split; [|split].
  - cbn [run]. change (step w (FieldBounds name [])) with (Some w1).
    cbv iota. change (step w1 Submit) with (Some (handleSubmit w1)).
    cbv iota. rewrite (step_WsOpen (handleSubmit w1) id ws0 H0 eq_refl).
    reflexivity.
  - simpl. rewrite list_lookup_insert_eq by (now apply lookup_lt_Some in H0).
    simpl. now rewrite (request_shape (Some o) (params w)).
  - apply written_lookup. subst o. now rewrite lookup_set_eq.
Qed.

Lemma onSocket_lookup_ne (id id' : nat) (f : WebSocket -> WebSocket)
    (w : World) :
  id <> id' ->
  sockets (onSocket id f w) !! id' = sockets w !! id'.
Proof.
  intros Hne. unfold onSocket.
  destruct (sockets w !! id); [|reflexivity]. simpl.
  now apply list_lookup_insert_ne.
Qed.

(** X12.  Since a submit closes nothing, the session before it goes on
    feeding the page.  After a resubmit, a progress event of the old session
    is appended to the fresh logs of the new one, and an error event of the
    old session clears the loading flag while the new session is still
    connecting. *)
Theorem stale_session_feeds_new_one (w : World) (id : nat) (ws : WebSocket)
    (o : obj) (m : jsval) (t : Str.t) :
  sockets w !! id = Some ws ->
  readyState ws = OPEN ->
  bounds w = Some o ->
  exists w1 w2,
    run w [Submit; WsMessage id (Some (Session.logEvent m))] = Some w1
    /\ logs w1 = [VStr (js "Initializing connection..."); m]
    /\ run w [Submit; WsMessage id (Some (Session.errorEvent (VStr t)))]
       = Some w2
    /\ loading w2 = false
    /\ readyStateOf (length (sockets w)) w2 = Some CONNECTING.
Proof.
  intros Hws Hrs Hb.
  destruct (submit_with_bounds w o Hb) as (Hsub & _ & _ & Hlogs & _).
  assert (H0 : sockets (handleSubmit w) !! id = Some ws)
    by (rewrite Hsub; now apply lookup_app_l_Some).
  assert (Hlt : (id < length (sockets w))%nat)
    by now apply lookup_lt_Some in Hws.
  eexists. eexists. split; [|split; [|split; [|split]]].
  - cbn [run]. change (step w Submit) with (Some (handleSubmit w)). cbv iota.
    rewrite (step_WsMessage (handleSubmit w) id ws _ H0 Hrs).
    unfold Session.logEvent.
    rewrite (onmessage_log (handleSubmit w) id
               [(js "type", VStr (js "log")); (js "message", m)] eq_refl).
    reflexivity.
  - simpl. now rewrite Hlogs.
  - cbn [run]. change (step w Submit) with (Some (handleSubmit w)). cbv iota.
    rewrite (step_WsMessage (handleSubmit w) id ws _ H0 Hrs).
    unfold Session.errorEvent.
    rewrite (onmessage_error (handleSubmit w) id
               [(js "type", VStr (js "error")); (js "message", VStr t)]
               t eq_refl eq_refl).
    reflexivity.
  - match goal with |- loading (onSocket id close ?x) = _ =>
      destruct (onSocket_state id close x) as (_ & _ & -> & _)
    end. reflexivity.
  - unfold readyStateOf. rewrite onSocket_lookup_ne by lia.
    simpl. rewrite Hsub, lookup_app_r by lia. now rewrite Nat.sub_diag.
Qed.

(** The first session is running when the user submits again. *)
Lemma stale_session_feeds_new_one_witness :
  exists w1,
    run Session.running
      [Submit; WsMessage 0 (Some (Session.logEvent (VStr (js "late"))))]
      = Some w1
    /\ logs w1 = [VStr (js "Initializing connection..."); VStr (js "late")].
Proof.
  destruct (stale_session_feeds_new_one Session.running 0%nat _
              (MapComponent.published Session.arabianSea)
              (VStr (js "late")) (js "busy") eq_refl eq_refl eq_refl)
    as (w1 & _ & H1 & Hl & _).
  exists w1. split; [exact H1 | exact Hl].
Defined.

(** X13.  An event changes no socket but the one it is raised on: a submit
    and the edits of the user leave every socket as it is, and an open, a
    message, an error or a close on one socket leaves every other socket as
    it is. *)
Theorem other_sockets_untouched (w w' : World) (e : event) (id' : nat)
    (ws' : WebSocket) :
  step w e = Some w' ->
  Page.socketOf e <> Some id' ->
  sockets w !! id' = Some ws' ->
  sockets w' !! id' = Some ws'.
Proof.
  intros Hstep Hne Hws'.
  destruct (Page.isUserEdit e) eqn:Hu.
  { destruct (user_edit_frame w e Hu) as (w1 & Hs & E1 & _).
    rewrite Hs in Hstep. injection Hstep as <-. now rewrite E1. }
  destruct e as [name value|name value|bio|layer| | |id|id parsed|id|id];
    try discriminate; simpl in Hstep, Hne.
  - injection Hstep as <-. unfold handleSubmit.
    destruct (negb _); simpl; [exact Hws'|]. now apply lookup_app_l_Some.
  - assert (id <> id') by congruence.
    destruct (readyStateOf id w) as [[]|]; try discriminate.
    injection Hstep as <-. unfold onopen.
    now rewrite !onSocket_lookup_ne.
  - assert (id <> id') by congruence.
    destruct (readyStateOf id w) as [[]|]; try discriminate.
    injection Hstep as <-.
    destruct (onmessage_cases w id parsed)
      as [-> | [(m & ->) | [(t & ->) | (d & v & ->)]]];
      try exact Hws'; now rewrite onSocket_lookup_ne.
  - assert (id <> id') by congruence.
    destruct (readyStateOf id w) as [[]|]; try discriminate;
      injection Hstep as <-;
      change (sockets (onSocket id (withReadyState CLOSED) w) !! id' = Some ws');
      now rewrite onSocket_lookup_ne.
  - assert (id <> id') by congruence.
    destruct (readyStateOf id w) as [[]|]; try discriminate;
      injection Hstep as <-; now rewrite onSocket_lookup_ne.
Qed.

(** Two sessions are open and the first one completes: the second socket is
    as it was. *)
Lemma other_sockets_untouched_witness :
  exists w w' ws',
    run Session.running [Submit; WsOpen 1] = Some w
    /\ sockets w !! 1%nat = Some ws'
    /\ step w (WsMessage 0 (Some (Session.completeEvent
                                    (VStr (js "A,B")) (VStr (js "a.csv")))))
       = Some w'
    /\ sockets w' !! 1%nat = Some ws'.
Proof.
  set (w := default initial (run Session.running [Submit; WsOpen 1])).
  set (e := WsMessage 0 (Some (Session.completeEvent
                                 (VStr (js "A,B")) (VStr (js "a.csv"))))).
  destruct (sockets w !! 1%nat) as [ws'|] eqn:E;
    [|vm_compute in E; discriminate].
  exists w, (default w (step w e)), ws'.
  split; [vm_compute; reflexivity|]. split; [exact E|].
  split; [vm_compute; reflexivity|].
  apply (other_sockets_untouched w _ e 1%nat ws');
    [vm_compute; reflexivity | discriminate | exact E].
Defined.

End Reachable.

(** ** From the result to the preview *)

Section ResultPreview.

Import App.

(** X14.  On a [complete] event the payload goes to the state as it is,
    beside the download, and the page renders [previewData && <DataPreview
    />] in the place of the preview.  A payload that is a Number and false
    as a condition (zero, NaN) is shown there as its text, and the
    component is not called.  Any other payload that is false as a
    condition (the empty string, [null], [false], no [csv] at all) shows
    nothing.  A payload that is true as a condition and not a string (a
    number, an array, an object) goes to the component, which throws, since
    such a value has no [trim].  A string that is not empty is shown as the
    table the component makes of it. *)
Theorem preview_after_completion (w : World) (id : nat) (ws : WebSocket)
    (o : obj) (text name : Str.t) :
  sockets w !! id = Some ws ->
  readyState ws = OPEN ->
  JS.lookup (js "type") o = VStr (js "complete") ->
  JS.ToString (JS.lookup (js "csv") o) = Some text ->
  JS.ToString (JS.lookup (js "filename") o) = Some name ->
  exists w',
    step w (WsMessage id (Some (VObj o))) = Some w'
    /\ previewData w' = JS.lookup (js "csv") o
    /\ length (downloads w') = S (length (downloads w))
    /\ loading w' = false
    /\ (forall x, JS.lookup (js "csv") o = VNum x ->
        JS.ToBoolean (VNum x) = false ->
        Page.previewSlot (previewData w') = Page.ShowsText (Num.toString x))
    /\ (JS.ToBoolean (JS.lookup (js "csv") o) = false ->
        (forall x, JS.lookup (js "csv") o <> VNum x) ->
        Page.previewSlot (previewData w') = Page.ShowsNothing)
    /\ (JS.ToBoolean (JS.lookup (js "csv") o) = true ->
        (forall s, JS.lookup (js "csv") o <> VStr s) ->
        Page.previewSlot (previewData w') = Page.Throws)
    /\ (forall s, JS.lookup (js "csv") o = VStr s -> s <> [] ->
        exists t,
          Page.previewSlot (previewData w') = Page.ShowsTable t
          /\ DataPreview.render (VStr s) = DataPreview.Table t).
Proof.
  intros Hws Hrs Ht Hc Hf.
  eexists. split; [apply (step_WsMessage w id ws _ Hws Hrs)|].
  rewrite (onmessage_complete w id o text name Ht Hc Hf).
  match goal with |- context [onSocket id close ?x] => set (w3 := x) end.
  destruct (onSocket_state id close w3) as (_ & _ & -> & -> & _ & _ & -> & _).
  subst w3. simpl. split; [reflexivity|].
  split; [rewrite length_app; simpl; lia|]. split; [reflexivity|].
  unfold Page.previewSlot. split; [|split; [|split]].
  - intros x Hx Hb. rewrite Hx. cbn [JS.ToBoolean]. rewrite Hb. reflexivity.
  - intros Hb Hn. rewrite Hb.
    destruct (JS.lookup (js "csv") o); try reflexivity.
    now destruct (Hn x).
  - intros Hb Hs. rewrite Hb. unfold DataPreview.render. rewrite Hb. simpl.
    destruct (JS.lookup (js "csv") o); try reflexivity.
    now destruct (Hs s).
  - intros s -> Hne.
    assert (Hb : JS.ToBoolean (VStr s) = true)
      by (destruct s; [now destruct Hne | reflexivity]).
    rewrite Hb. unfold DataPreview.render. rewrite Hb. simpl.
    unfold Str.split. destruct (Str.splitAux 10 (Str.trim s)) as [cur acc].
    eexists. split; reflexivity.
Qed.

(** The service answers with the number 0 where the payload should be: the
    page shows the text 0 in the place of the preview. *)
Lemma preview_after_completion_witness :
  exists w',
    step Session.running
      (WsMessage 0 (Some (Session.completeEvent (VNum 0%float)
                            (VStr (js "a.csv"))))) = Some w'
    /\ previewData w' = VNum 0%float
    /\ length (downloads w') = 1%nat
    /\ Page.previewSlot (previewData w') = Page.ShowsText (js "0").
Proof.
  destruct (preview_after_completion Session.running 0%nat _
              [ (js "type", VStr (js "complete")); (js "csv", VNum 0%float);
                (js "filename", VStr (js "a.csv")) ]
              (js "0") (js "a.csv") eq_refl eq_refl eq_refl
              ltac:(vm_compute; reflexivity) eq_refl)
    as (w' & Hs & Hp & Hd & _ & Hz & _).
  exists w'. split; [exact Hs|]. split; [exact Hp|]. split; [exact Hd|].
  exact (Hz 0%float eq_refl eq_refl).
Defined.

(** X15.  The request/response variant ends every request with [loading]
    cleared.  A fulfilled request whose category converts to a string shows
    the text of the body in the preview and downloads the body as received;
    a rejected one downloads nothing, leaves the preview alone and shows
    "Failed to process data: " followed by the error of the server when
    there is one and by the message of the error when not. *)
Theorem http_request_outcomes (p : obj) (w : World) :
  (forall data text now type,
     JS.ToString (JS.lookup (js "type") p) = Some type ->
     let w' := AppHttp.resume p (AppHttp.Fulfilled data text now) w in
     loading w' = false
     /\ previewData w' = VStr text
     /\ List.map href (downloads w') = List.map href (downloads w) ++ [data]
     /\ alerts w' = alerts w)
  /\ (forall error shown,
        JS.ToString (JS.or (AppHttp.responseError error)
                       (AppHttp.message error)) = Some shown ->
        let w' := AppHttp.resume p (AppHttp.Rejected error) w in
        loading w' = false
        /\ alerts w' = alerts w ++ [js "Failed to process data: " ++ shown]
        /\ downloads w' = downloads w
        /\ previewData w' = previewData w
        /\ (JS.ToBoolean (AppHttp.responseError error) = true ->
            JS.ToString (AppHttp.responseError error) = Some shown)
        /\ (JS.ToBoolean (AppHttp.responseError error) = false ->
            JS.ToString (AppHttp.message error) = Some shown)).
Proof.
  split.
  - intros data text now type Ht. unfold AppHttp.resume, AppHttp.fileName.
    rewrite Ht. simpl. rewrite List.map_app. repeat split.
  - intros error shown Hs. unfold AppHttp.resume, AppHttp.catch, JS.concat.
    rewrite Hs. simpl. repeat split.
    + intros Hb. unfold JS.or in Hs. now rewrite Hb in Hs.
    + intros Hb. unfold JS.or in Hs. now rewrite Hb in Hs.
Qed.

End ResultPreview.

(** ** DataPreview, further *)

Section PreviewFacts.

(** A text splits into one piece more than it has separators. *)
Lemma split_length (sep : N) (s : Str.t) :
  length (Str.split sep s) = S (count_occ N.eq_dec s sep).
Proof.
  unfold Str.split. induction s as [|c r IH]; [reflexivity|].
  simpl. destruct (Str.splitAux sep r) as [p ps]. simpl in IH.
  destruct (N.eqb c sep) eqn:E.
  - apply N.eqb_eq in E. subst c.
    destruct (N.eq_dec sep sep); [|contradiction]. simpl. now rewrite IH.
  - apply N.eqb_neq in E.
    destruct (N.eq_dec c sep); [contradiction|]. exact IH.
Qed.

(** X16.  The cells of a row are exactly the pieces of its line between the
    commas: the header row and every data row have one cell more than their
    line has commas, and the cells joined by commas give the line back.  So
    no comma is ever kept inside a cell, quoted or not, and no cell is
    trimmed or unquoted. *)
Theorem cells_are_the_comma_pieces (s : Str.t) :
  s <> [] ->
  exists t,
    DataPreview.render (VStr s) = DataPreview.Table t
    /\ (exists line,
          hd_error (Str.split 10 (Str.trim s)) = Some line
          /\ length (DataPreview.headers t) = S (Page.commas line)
          /\ Str.join [44%N] (DataPreview.headers t) = line)
    /\ Forall2 (fun cells line =>
                  length cells = S (Page.commas line)
                  /\ Str.join [44%N] cells = line)
         (DataPreview.dataRows t)
         (firstn 10 (tl (Str.split 10 (Str.trim s)))).
Proof.
  intros Hs. unfold DataPreview.render.
  destruct s as [|c r]; [contradiction|]. cbn [JS.ToBoolean negb].
  destruct (Str.split 10 (Str.trim (c :: r))) as [|h rows] eqn:E.
  { unfold Str.split in E. destruct (Str.splitAux 10 _). discriminate. }
  eexists. split; [reflexivity|].
  cbn [DataPreview.headers DataPreview.dataRows hd_error tl]. split.
  - exists h. split; [reflexivity|]. split; [apply split_length|].
    apply (proj1 (join_split 44 h)).
  - change (DataPreview.slice 1 11 (h :: rows)) with (firstn 10 rows).
    induction (firstn 10 rows) as [|l ls IH]; simpl; constructor;
      [|exact IH].
    split; [apply split_length | apply (proj1 (join_split 44 l))].
Qed.

(** A line with a quoted comma: its cells are the three pieces between the
    commas. *)
Lemma cells_are_the_comma_pieces_witness :
  js "name,place
x,'a,b'" <> []
  /\ exists t,
       DataPreview.render (VStr (js "name,place
x,'a,b'")) = DataPreview.Table t
       /\ Forall2 (fun cells line =>
                     length cells = S (Page.commas line)
                     /\ Str.join [44%N] cells = line)
            (DataPreview.dataRows t) [js "x,'a,b'"].
Proof.
  split; [discriminate|].
  destruct (cells_are_the_comma_pieces (js "name,place
x,'a,b'") ltac:(discriminate))
    as (t & Hr & _ & Hrows).
  exists t. split; [exact Hr | exact Hrows].
Defined.

Lemma trimStart_blank_app (a x : Str.t) :
  Page.blank a = true -> Str.trimStart (a ++ x) = Str.trimStart x.
Proof.
  unfold Page.blank. induction a as [|c r IH]; simpl; [reflexivity|].
  intros H. apply andb_true_iff in H as [Hc Hr]. rewrite Hc. now apply IH.
Qed.

Lemma trimStart_app (s b : Str.t) :
  Str.trimStart s <> [] -> Str.trimStart (s ++ b) = Str.trimStart s ++ b.
Proof.
  induction s as [|c r IH]; simpl; [contradiction|].
  destruct (Str.isWhite c); [exact IH | reflexivity].
Qed.

Lemma blank_rev (b : Str.t) : Page.blank b = true -> Page.blank (rev b) = true.
Proof.
  unfold Page.blank. intros H. apply forallb_forall. intros x Hx.
  apply in_rev in Hx. now apply (proj1 (forallb_forall _ _) H).
Qed.

Lemma trimEnd_app_blank (x b : Str.t) :
  Page.blank b = true -> Str.trimEnd (x ++ b) = Str.trimEnd x.
Proof.
  intros H. unfold Str.trimEnd. rewrite rev_app_distr.
  now rewrite (trimStart_blank_app (rev b) (rev x) (blank_rev b H)).
Qed.

(** White space around a text that is not all white space is trimmed away
    with the white space of the text itself. *)
Lemma trim_padding (a s b : Str.t) :
  Page.blank a = true ->
  Page.blank b = true ->
  Str.trim s <> [] ->
  Str.trim (a ++ s ++ b) = Str.trim s.
Proof.
  intros Ha Hb Hs. unfold Str.trim in *.
  rewrite (trimStart_blank_app a _ Ha).
  rewrite trimStart_app.
  - now apply trimEnd_app_blank.
  - intros E. rewrite E in Hs. now apply Hs.
Qed.

(** X17.  White space around the payload does not change the preview: for a
    text that is not all white space, any white space before it and after
    it (a final line feed, a byte-order mark in front) gives the same
    table. *)
Theorem preview_ignores_padding (a s b : Str.t) :
  Page.blank a = true ->
  Page.blank b = true ->
  Str.trim s <> [] ->
  DataPreview.render (VStr (a ++ s ++ b)) = DataPreview.render (VStr s).
Proof.
  intros Ha Hb Hs.
  assert (Hne : s <> []) by (intros ->; now apply Hs).
  unfold DataPreview.render.
  rewrite (trim_padding a s b Ha Hb Hs).
  destruct s as [|c r]; [contradiction|].
  destruct (a ++ (c :: r) ++ b) eqn:E; [|reflexivity].
  apply app_eq_nil in E as [_ E]. discriminate.
Qed.

(** The payload with a byte-order mark in front and a line feed at the
    end. *)
Lemma preview_ignores_padding_witness :
  DataPreview.render (VStr (App.BOM ++ js "A,B" ++ [10%N]))
  = DataPreview.render (VStr (js "A,B")).
Proof.
  apply (preview_ignores_padding App.BOM (js "A,B") [10%N]);
    [reflexivity | reflexivity | discriminate].
Defined.

End PreviewFacts.

(** ** From the fields to the overlay *)

Section FieldsToOverlay.

Import App.

(** X18.  Typing four Numbers into the four boundary fields, whatever the
    bounds were before, gives bounds the effect accepts as numeric: it
    redraws one rectangle with the parsed values as corners when the north
    is above the south and the east beyond the west, and clears the feature
    group when not. *)
Theorem typed_fields_redraw_overlay (w : World) (vn vs ve vw : Str.t)
    (layers : list (list jsval)) :
  Forall (fun v => v <> [] /\ Num.isNaN (Num.parseFloat v) = false)
    [vn; vs; ve; vw] ->
  exists w',
    run w [ FieldBounds (js "north") vn; FieldBounds (js "south") vs;
            FieldBounds (js "east") ve; FieldBounds (js "west") vw ] = Some w'
    /\ MapComponent.numeric (bounds w') = true
    /\ MapComponent.effect (bounds w') layers
       = if JS.gt (Num.parseFloat vn) (Num.parseFloat vs)
            && JS.gt (Num.parseFloat ve) (Num.parseFloat vw)
         then [ [ VNum (Num.parseFloat vs); VNum (Num.parseFloat vw);
                  VNum (Num.parseFloat vn); VNum (Num.parseFloat ve) ] ]
         else [].
Proof.
  intros H.
  inversion H as [|? ? [Nn Pn] H1]; subst.
  inversion H1 as [|? ? [Ns Ps] H2]; subst.
  inversion H2 as [|? ? [Ne Pe] H3]; subst.
  inversion H3 as [|? ? [Nw Pw] _]; subst.
  apply str_eqb_neq in Nn, Ns, Ne, Nw.
  assert (Hedit : forall b name v,
            Str.eqb v [] = false -> Num.isNaN (Num.parseFloat v) = false ->
            Sidebar.handleBoundsChange b name v
            = Some (JS.set name (VNum (Num.parseFloat v)) (JS.spread b))).
  { intros b name v E P. unfold Sidebar.handleBoundsChange. now rewrite E, P. }
  eexists. split.
  { cbn [run step]. rewrite (Hedit _ _ _ Nn Pn). cbn [handleBoundsChange].
    cbn [bounds setBounds]. rewrite (Hedit _ _ _ Ns Ps).
    cbn [bounds setBounds handleBoundsChange].
    rewrite (Hedit _ _ _ Ne Pe). cbn [bounds setBounds handleBoundsChange].
    rewrite (Hedit _ _ _ Nw Pw). reflexivity. }
  cbn [bounds setBounds handleBoundsChange JS.spread].
  set (o := JS.set (js "west") _ _).
  assert (Ln : JS.lookup (js "north") o = VNum (Num.parseFloat vn)).
  { subst o. rewrite !lookup_set_ne by discriminate. apply lookup_set_eq. }
  assert (Ls : JS.lookup (js "south") o = VNum (Num.parseFloat vs)).
  { subst o. rewrite !lookup_set_ne by discriminate. apply lookup_set_eq. }
  assert (Le : JS.lookup (js "east") o = VNum (Num.parseFloat ve)).
  { subst o. rewrite !lookup_set_ne by discriminate. apply lookup_set_eq. }
  assert (Lw : JS.lookup (js "west") o = VNum (Num.parseFloat vw)).
  { subst o. apply lookup_set_eq. }
  assert (Hnum : MapComponent.numeric (Some o) = true).
  { unfold MapComponent.numeric, JS.optGet, JS.ofBounds, JS.Get.
    now rewrite Ln, Ls, Le, Lw. }
  split; [exact Hnum|].
  unfold MapComponent.effect, MapComponent.valid. rewrite Hnum.
  unfold JS.optGet, JS.ofBounds, JS.Get. cbn [List.map].
  rewrite Ln, Ls, Le, Lw. simpl.
  destruct (JS.gt _ _ && JS.gt _ _); reflexivity.
Qed.

(** The four sides of the Arabian Sea rectangle typed into a fresh form. *)
Lemma typed_fields_redraw_overlay_witness :
  exists w',
    run initial [ FieldBounds (js "north") (js "25");
                  FieldBounds (js "south") (js "5");
                  FieldBounds (js "east") (js "75");
                  FieldBounds (js "west") (js "55") ] = Some w'
    /\ MapComponent.effect (bounds w') []
       = [[VNum 5%float; VNum 55%float; VNum 25%float; VNum 75%float]].
Proof.
  destruct (typed_fields_redraw_overlay initial (js "25") (js "5") (js "75")
              (js "55") [])
    as (w' & Hr & _ & He).
  { repeat constructor; try discriminate; vm_compute; reflexivity. }
  exists w'. split; [exact Hr|].
  etransitivity; [exact He | vm_compute; reflexivity].
Defined.

End FieldsToOverlay.
